(** * HAProxy Ingress controller orchestrator (pkg/controller/controller.go)

    A shallow embedding of [HAProxyController]: its fields, the heap of
    [utils.Queue] objects it shares with the proxy instance, and the calls
    it makes on its collaborators, recorded in a trace.  Every method of the
    source is a computation in a small state monad whose results are
    normal completion, process exit ([glog.Fatalf]) or a nil dereference. *)

From Stdlib Require Import ZArith QArith.
From stdpp Require Import base list strings.

Local Open Scope Z_scope.

(** ** Machine integers

    Go's [int] and [time.Duration] are 64-bit two's complement on the
    platforms the controller is built for; arithmetic wraps around. *)

Definition max_int : Z := 2 ^ 63 - 1.
Definition min_int : Z := - 2 ^ 63.

Definition wrap_int (z : Z) : Z := (z + 2 ^ 63) mod 2 ^ 64 - 2 ^ 63.

Definition int_add (a b : Z) : Z := wrap_int (a + b).
Definition int_mul (a b : Z) : Z := wrap_int (a * b).

(** [time.Duration] counts nanoseconds. *)
Definition Duration := Z.
Definition Second : Duration := 1000000000.

(** [Duration.Milliseconds]: integer division truncating toward zero. *)
Definition Milliseconds (d : Duration) : Z := Z.quot d 1000000.

(** ** Collaborator data *)

(** Queue keys are strings; queue objects and timers are referred to by
    their index in the order of creation. *)
Abbreviation Item := string (only parsing).
Abbreviation qref := nat (only parsing).
Abbreviation Timer := nat (only parsing).

Module Configuration.
(** The fields of [controller.Configuration] the orchestrator reads. *)
Record t := mk {
  BucketsResponseTime : list Q;
  RateLimitUpdate : Q;
  AllowCrossNamespace : bool;
  AcmeServer : bool;
  AcmeElectionID : string;
  IngressClass : string;
  AcmeFailInitialDuration : Duration;
  AcmeFailMaxDuration : Duration;
  AcmeCheckPeriod : Duration;
  AcmeTrackTLSAnn : bool;
  BackendShards : Z;
  SortEndpointsBy : string;
  MasterSocket : string;
  AnnPrefix : string;
  DefaultService : string;
  DefaultSSLCertificate : string;
  StatsCollectProcPeriod : Duration;
  WaitBeforeShutdown : Z
}.
End Configuration.

(** [convtypes.CrtFile] *)
Record CrtFile := mkCrtFile {
  Filename : string;
  SHA1Hash : string;
  CommonName : string;
  NotAfter : Z
}.

(** The x509 certificate returned by [CreateDefaultSSLCertificate]. *)
Record Certificate := mkCertificate {
  Subject_CommonName : string;
  crt_NotAfter : Z
}.

(** [ingress.SSLCert], as returned by [ssl.AddCertAuth]. *)
Record SSLCert := mkSSLCert {
  PemFileName : string;
  PemSHA : string
}.

Record logger := mkLogger { depth : Z }.
Record DynamicConfig := mkDynamicConfig { StaticCrossNamespaceSecrets : bool }.

(** Opaque handles of objects built by collaborators. *)
Inductive GenericController := TheGenericController.
Inductive StopCh := TheStopCh.
Inductive ConfigMap := AConfigMap (name : string).
Inductive Tracker := TheTracker.
Inductive Signer := TheSigner.
Record metrics := mkMetrics { buckets : list Q }.
Record k8scache := mkCache { cache_queue : qref }.
Record LeaderElector := mkLeaderElector { le_id : string }.

Module InstanceOptions.
(** [haproxy.InstanceOptions], the fields [configController] fills. *)
Record t := mk {
  HAProxyCfgDir : string;
  HAProxyMapsDir : string;
  BackendShards : Z;
  AcmeSigner : option Signer;
  AcmeQueue : option qref;
  LeaderElector : option LeaderElector;
  Metrics : option metrics;
  ReloadStrategy : string;
  MaxOldConfigFiles : Z;
  SortEndpointsBy : string;
  StopCh : option StopCh;
  ValidateConfig : bool
}.
End InstanceOptions.

Module ConverterOptions.
(** [convtypes.ConverterOptions] *)
Record t := mk {
  Logger : option logger;
  Cache : option k8scache;
  Tracker : option Tracker;
  DynamicConfig : option DynamicConfig;
  MasterSocket : string;
  AnnotationPrefix : string;
  DefaultBackend : string;
  DefaultCrtSecret : string;
  FakeCrtFile : CrtFile;
  FakeCAFile : CrtFile;
  AcmeTrackTLSAnn : bool;
  HasGateway : bool
}.
End ConverterOptions.

(** [haproxy.Instance] as the orchestrator sees it: the options it was
    created with. *)
Record Instance := mkInstance { inst_options : InstanceOptions.t }.

(** ** The controller object *)

Record HAProxyController := mkHC {
  instance : option Instance;
  hc_logger : option logger;
  cache : option k8scache;
  hc_metrics : option metrics;
  tracker : option Tracker;
  stopCh : option StopCh;
  ingressQueue : option qref;
  acmeQueue : option qref;
  leaderelector : option LeaderElector;
  updateCount : Z;
  controller : option GenericController;
  cfg : option Configuration.t;
  configMap : option ConfigMap;
  converterOptions : option ConverterOptions.t;
  dynamicConfig : option DynamicConfig;
  reloadStrategy : option string;
  maxOldConfigFiles : option Z;
  validateConfig : option bool
}.

(** [NewHAProxyController]: [&HAProxyController{}], every field zero. *)
Definition NewHAProxyController : HAProxyController :=
  mkHC None None None None None None None None None 0 None None None None
       None None None None.

Definition set_instance v h :=
  let 'mkHC _ l c m t s iq aq le u ct cf cm co dc rs mo vc := h in
  mkHC v l c m t s iq aq le u ct cf cm co dc rs mo vc.
Definition set_logger v h :=
  let 'mkHC i _ c m t s iq aq le u ct cf cm co dc rs mo vc := h in
  mkHC i v c m t s iq aq le u ct cf cm co dc rs mo vc.
Definition set_cache v h :=
  let 'mkHC i l _ m t s iq aq le u ct cf cm co dc rs mo vc := h in
  mkHC i l v m t s iq aq le u ct cf cm co dc rs mo vc.
Definition set_metrics v h :=
  let 'mkHC i l c _ t s iq aq le u ct cf cm co dc rs mo vc := h in
  mkHC i l c v t s iq aq le u ct cf cm co dc rs mo vc.
Definition set_tracker v h :=
  let 'mkHC i l c m _ s iq aq le u ct cf cm co dc rs mo vc := h in
  mkHC i l c m v s iq aq le u ct cf cm co dc rs mo vc.
Definition set_stopCh v h :=
  let 'mkHC i l c m t _ iq aq le u ct cf cm co dc rs mo vc := h in
  mkHC i l c m t v iq aq le u ct cf cm co dc rs mo vc.
Definition set_ingressQueue v h :=
  let 'mkHC i l c m t s _ aq le u ct cf cm co dc rs mo vc := h in
  mkHC i l c m t s v aq le u ct cf cm co dc rs mo vc.
Definition set_acmeQueue v h :=
  let 'mkHC i l c m t s iq _ le u ct cf cm co dc rs mo vc := h in
  mkHC i l c m t s iq v le u ct cf cm co dc rs mo vc.
Definition set_leaderelector v h :=
  let 'mkHC i l c m t s iq aq _ u ct cf cm co dc rs mo vc := h in
  mkHC i l c m t s iq aq v u ct cf cm co dc rs mo vc.
Definition set_updateCount v h :=
  let 'mkHC i l c m t s iq aq le _ ct cf cm co dc rs mo vc := h in
  mkHC i l c m t s iq aq le v ct cf cm co dc rs mo vc.
Definition set_controller v h :=
  let 'mkHC i l c m t s iq aq le u _ cf cm co dc rs mo vc := h in
  mkHC i l c m t s iq aq le u v cf cm co dc rs mo vc.
Definition set_cfg v h :=
  let 'mkHC i l c m t s iq aq le u ct _ cm co dc rs mo vc := h in
  mkHC i l c m t s iq aq le u ct v cm co dc rs mo vc.
Definition set_configMap v h :=
  let 'mkHC i l c m t s iq aq le u ct cf _ co dc rs mo vc := h in
  mkHC i l c m t s iq aq le u ct cf v co dc rs mo vc.
Definition set_converterOptions v h :=
  let 'mkHC i l c m t s iq aq le u ct cf cm _ dc rs mo vc := h in
  mkHC i l c m t s iq aq le u ct cf cm v dc rs mo vc.
Definition set_dynamicConfig v h :=
  let 'mkHC i l c m t s iq aq le u ct cf cm co _ rs mo vc := h in
  mkHC i l c m t s iq aq le u ct cf cm co v rs mo vc.
Definition set_reloadStrategy v h :=
  let 'mkHC i l c m t s iq aq le u ct cf cm co dc _ mo vc := h in
  mkHC i l c m t s iq aq le u ct cf cm co dc v mo vc.
Definition set_maxOldConfigFiles v h :=
  let 'mkHC i l c m t s iq aq le u ct cf cm co dc rs _ vc := h in
  mkHC i l c m t s iq aq le u ct cf cm co dc rs v vc.
Definition set_validateConfig v h :=
  let 'mkHC i l c m t s iq aq le u ct cf cm co dc rs mo _ := h in
  mkHC i l c m t s iq aq le u ct cf cm co dc rs mo v.

(** ** Work queues

    [utils.Queue] lives in pkg/utils, outside this file; the orchestrator
    only constructs queues and calls [Run], [ShutDown], [ShuttingDown] and
    [Clear] on them. *)

Inductive Handler :=
| HSyncIngress          (* hc.syncIngress *)
| HAcmeNotify.          (* acmeSigner.Notify *)

Inductive Limiter :=
| RateLimit (rate : Q)
| FailureBackoff (initial max : Duration).

Record Queue := mkQueue {
  q_limiter : Limiter;
  q_handler : Handler;
  q_pending : list Item;
  q_shuttingDown : bool
}.

(** Modelled from the spec: [utils.NewRateLimitingQueue] (pkg/utils/queue.go
    is not part of the sources at hand) creates an empty queue with a single
    processing function and a global rate limit. *)
Definition NewRateLimitingQueue (rate : Q) (h : Handler) : Queue :=
  mkQueue (RateLimit rate) h [] false.

(** Modelled from the spec: [utils.NewFailureRateLimitingQueue] creates an
    empty queue whose retry delay starts at [initial] and is capped at
    [max]. *)
Definition NewFailureRateLimitingQueue (initial max : Duration) (h : Handler) : Queue :=
  mkQueue (FailureBackoff initial max) h [] false.

(** Modelled from the spec: [Queue.Add], the spec's Enqueue.  It adds or
    coalesces a key and is a no-op once [ShutDown] has been called. *)
Definition queue_Add (it : Item) (q : Queue) : Queue :=
  if q_shuttingDown q then q
  else if bool_decide (it ∈ q_pending q) then q
  else mkQueue (q_limiter q) (q_handler q) (q_pending q ++ [it]) false.

(** Modelled from the spec: [Queue.ShutDown] makes [ShuttingDown] true for
    all later calls. *)
Definition queue_ShutDown (q : Queue) : Queue :=
  mkQueue (q_limiter q) (q_handler q) (q_pending q) true.

(** Modelled from the spec: [Queue.Clear] discards all pending and
    scheduled items immediately. *)
Definition queue_Clear (q : Queue) : Queue :=
  mkQueue (q_limiter q) (q_handler q) [] (q_shuttingDown q).

(** Modelled from the spec: one iteration of [Queue.Run] takes the next
    pending key, if any. *)
Definition queue_Get (q : Queue) : option (Item * Queue) :=
  match q_pending q with
  | [] => None
  | it :: rest =>
      Some (it, mkQueue (q_limiter q) (q_handler q) rest (q_shuttingDown q))
  end.

(** ** Calls on collaborators *)

Inductive Task :=
| TQueueRun (q : qref)                       (* go queue.Run() *)
| TCalcIdleMetric (period : Duration)        (* go wait.Until(CalcIdleMetric) *)
| TLeaderElectorRun (le : LeaderElector)     (* go leaderelector.Run(stopCh) *)
| TAcmePeriodicCheck (period : Duration).    (* go wait.JitterUntil(AcmeCheck) *)

Inductive Arg :=
| AInt (z : Z)
| AStr (s : string)
| ADuration (d : Duration)
| ATimerTotal (t : Timer).                   (* timer.AsString("total") *)

Inductive Event :=
| EvWarning (fmt : string) (args : list Arg)     (* glog.Warningf *)
| EvGlogInfo (fmt : string) (args : list Arg)    (* glog.Infof *)
| EvFatal (fmt : string) (args : list Arg)       (* glog.Fatalf, logger.Fatal *)
| EvInfo (fmt : string) (args : list Arg)        (* hc.logger.Info *)
| EvNewIngressController
| EvFlagDefault (name value : string)
| EvSetNewCtrl
| EvNewQueue (q : qref)
| EvCreateCache (q : qref)
| EvNewLeaderElector (id : string)
| EvNewSigner
| EvCreateInstance (opts : InstanceOptions.t)
| EvParseTemplates
| EvCacheRunAsync
| EvGo (t : Task)
| EvAcmeListen (socket : string)
| EvStartAsync
| EvStopChReceived
| EvQueueShutDown (q : qref)
| EvQueueClear (q : qref)
| EvSleep (d : Duration)
| EvControllerStop
| EvNewTimer (t : Timer)
| EvInstanceConfig
| EvConverterSync (t : Timer)
| EvInstanceUpdate (t : Timer)
| EvAcmeCheck (reason : string)
| EvAcmeNotify (it : Item).

(** What the collaborators answer.  The orchestrator never computes these
    values, it only branches on them. *)
Record Env := mkEnv {
  arg_reload_strategy : option string;     (* --reload-strategy, when given *)
  arg_max_old_config_files : option Z;
  arg_validate_config : option bool;
  has_ingress_class_flag : bool;
  GetConfig : Configuration.t;
  ParseTemplates_err : option string;
  CreateDefaultSSLCertificate : string * string * Certificate;
  AddCertAuth : SSLCert + string;
  hasGateway : bool;
  Listen_err : option string;
  controller_Stop_err : option string;
  AcmeCheck_result : Z * option string
}.

(** ** The world and the monad *)

Record World := mkWorld {
  hc : HAProxyController;
  queues : list Queue;        (* heap of queue objects, shared by reference *)
  timers : nat;               (* timers handed out so far *)
  stopFired : bool;           (* the stop channel has been closed *)
  trace : list Event          (* calls on collaborators, oldest first *)
}.

Inductive Res (A : Type) :=
| Done (a : A)
| Fatal                         (* the process exited *)
| Panic                         (* nil dereference *)
| Blocked.                      (* waiting on the stop channel *)
Arguments Done {A} a.
Arguments Fatal {A}.
Arguments Panic {A}.
Arguments Blocked {A}.

Definition M (A : Type) : Type := World -> Res A * World.

Definition ret {A} (a : A) : M A := fun w => (Done a, w).

Definition bind {A B} (c : M A) (k : A -> M B) : M B :=
  fun w =>
    match c w with
    | (Done a, w') => k a w'
    | (Fatal, w') => (Fatal, w')
    | (Panic, w') => (Panic, w')
    | (Blocked, w') => (Blocked, w')
    end.

Notation "x <- c ;; k" := (bind c (fun x => k))
  (at level 100, c at next level, right associativity).
Notation "c ;;; k" := (bind c (fun _ => k))
  (at level 100, right associativity).

Definition emit (e : Event) : M unit :=
  fun w => (Done tt, mkWorld (hc w) (queues w) (timers w) (stopFired w) (trace w ++ [e])).

Definition get_hc : M HAProxyController := fun w => (Done (hc w), w).

Definition modify_hc (f : HAProxyController -> HAProxyController) : M unit :=
  fun w => (Done tt, mkWorld (f (hc w)) (queues w) (timers w) (stopFired w) (trace w)).

(** Use of a pointer or interface value: nil panics. *)
Definition deref {A} (o : option A) : M A :=
  fun w => match o with Some a => (Done a, w) | None => (Panic, w) end.

(** [glog.Fatalf] and [logger.Fatal]: log, then exit. *)
Definition fatal {A} (fmt : string) (args : list Arg) : M A :=
  fun w => (Fatal, mkWorld (hc w) (queues w) (timers w) (stopFired w)
                           (trace w ++ [EvFatal fmt args])).

Definition when (b : bool) (c : M unit) : M unit := if b then c else ret tt.

(** Allocation of a queue object; the reference is its heap index. *)
Definition new_queue (q : Queue) : M qref :=
  fun w =>
    let r := length (queues w) in
    (Done r, mkWorld (hc w) (queues w ++ [q]) (timers w) (stopFired w)
                     (trace w ++ [EvNewQueue r])).

Definition read_queue (r : qref) : M Queue :=
  fun w => match queues w !! r with
           | Some q => (Done q, w)
           | None => (Panic, w)
           end.

Definition write_queue (r : qref) (q : Queue) : M unit :=
  fun w => (Done tt, mkWorld (hc w) (<[r := q]> (queues w)) (timers w)
                             (stopFired w) (trace w)).

(** The methods of the queue object behind reference [r]; a reference that
    names no object is a nil dereference. *)
Definition Queue_ShuttingDown (r : qref) : M bool :=
  q <- read_queue r ;; ret (q_shuttingDown q).

Definition Queue_ShutDown (r : qref) : M unit :=
  q <- read_queue r ;;
  write_queue r (queue_ShutDown q) ;;;
  emit (EvQueueShutDown r).

Definition Queue_Clear (r : qref) : M unit :=
  q <- read_queue r ;;
  write_queue r (queue_Clear q) ;;;
  emit (EvQueueClear r).

Definition Queue_Add (r : qref) (it : Item) : M unit :=
  q <- read_queue r ;;
  write_queue r (queue_Add it q).

(** [utils.NewTimer]: a fresh timer. *)
Definition NewTimer : M Timer :=
  fun w =>
    let t := timers w in
    (Done t, mkWorld (hc w) (queues w) (S t) (stopFired w)
                     (trace w ++ [EvNewTimer t])).

(** [hc.logger.Info] *)
Definition logger_Info (fmt : string) (args : list Arg) : M unit :=
  h <- get_hc ;;
  _ <- deref (hc_logger h) ;;
  emit (EvInfo fmt args).

(** ** The methods of [HAProxyController] *)

Section Controller.

Variable e : Env.

(** [ingress.DefaultMapsDirectory] is declared in pkg/common/ingress. *)
Variable DefaultMapsDirectory : string.

(** [ConfigureFlags]: registers the three flags with their defaults and
    keeps the pointers; forces the default ingress class. *)
Definition ConfigureFlags : M unit :=
  modify_hc (set_reloadStrategy (Some "reusesocket")) ;;;
  modify_hc (set_maxOldConfigFiles (Some 0)) ;;;
  modify_hc (set_validateConfig (Some false)) ;;;
  when (has_ingress_class_flag e) (emit (EvFlagDefault "ingress-class" "haproxy")).

(** A value given on the command line replaces the default behind a
    registered flag's pointer. *)
Definition override {A} (given : option A) (cur : option A) : option A :=
  match cur, given with
  | Some _, Some v => Some v
  | _, _ => cur
  end.

(** [pflag.FlagSet.Parse], of the flag library, on the three flags. *)
Definition flags_Parse : M unit :=
  modify_hc (fun h => set_reloadStrategy (override (arg_reload_strategy e) (reloadStrategy h)) h) ;;;
  modify_hc (fun h => set_maxOldConfigFiles (override (arg_max_old_config_files e) (maxOldConfigFiles h)) h) ;;;
  modify_hc (fun h => set_validateConfig (override (arg_validate_config e) (validateConfig h)) h).

(** The allow-list tested by [OverrideFlags]. *)
Definition supported_strategy (rs : string) : bool :=
  String.eqb rs "native" || String.eqb rs "reusesocket" || String.eqb rs "multibinder".

(** [OverrideFlags] *)
Definition OverrideFlags : M unit :=
  h <- get_hc ;;
  rs <- deref (reloadStrategy h) ;;
  if negb (supported_strategy rs)
  then fatal "Unsupported reload strategy: %v" [AStr rs]
  else ret tt.

(** [SetConfig] *)
Definition SetConfig (cm : option ConfigMap) : M unit :=
  modify_hc (set_configMap cm).

(** Modelled from the spec: [controller.NewIngressController] belongs to
    pkg/common/ingress/controller, which is not among the sources at hand.
    It lets the backend register its flags before the command line is
    parsed and validate them afterwards, before any component is built. *)
Definition NewIngressController : M GenericController :=
  emit EvNewIngressController ;;;
  ConfigureFlags ;;;
  flags_Parse ;;;
  OverrideFlags ;;;
  ret TheGenericController.

(** [fmt.Sprintf("%s-%s", a, b)] *)
Definition electorID (c : Configuration.t) : string :=
  Configuration.AcmeElectionID c +:+ "-" +:+ Configuration.IngressClass c.

(** [createFakeCrtFile] *)
Definition createFakeCrtFile : M CrtFile :=
  h <- get_hc ;;
  _ <- deref (controller h) ;;
  let '(path, hash, crt) := CreateDefaultSSLCertificate e in
  ret (mkCrtFile path hash (Subject_CommonName crt) (crt_NotAfter crt)).

(** [createFakeCAFile] *)
Definition createFakeCAFile : M CrtFile :=
  match AddCertAuth e with
  | inr err => fatal "error generating fake CA: %v" [AStr err]
  | inl fakeCAFile => ret (mkCrtFile (PemFileName fakeCAFile) (PemSHA fakeCAFile) "" 0)
  end.

(** [configController] *)
Definition configController : M unit :=
  h <- get_hc ;;
  rs <- deref (reloadStrategy h) ;;
  when (String.eqb rs "multibinder")
    (emit (EvWarning "multibinder is deprecated, using reusesocket strategy instead. update your deployment configuration" [])) ;;;
  ctl <- deref (controller h) ;;
  let c := GetConfig e in
  modify_hc (set_cfg (Some c)) ;;;
  modify_hc (set_stopCh (Some TheStopCh)) ;;;
  emit EvSetNewCtrl ;;;
  let lg := mkLogger 1 in
  modify_hc (set_logger (Some lg)) ;;;
  let mt := mkMetrics (Configuration.BucketsResponseTime c) in
  modify_hc (set_metrics (Some mt)) ;;;
  iq <- new_queue (NewRateLimitingQueue (Configuration.RateLimitUpdate c) HSyncIngress) ;;
  modify_hc (set_ingressQueue (Some iq)) ;;;
  modify_hc (set_tracker (Some TheTracker)) ;;;
  let dc := mkDynamicConfig (Configuration.AllowCrossNamespace c) in
  modify_hc (set_dynamicConfig (Some dc)) ;;;
  let ch := mkCache iq in
  emit (EvCreateCache iq) ;;;
  modify_hc (set_cache (Some ch)) ;;;
  acmeSigner <-
    (if Configuration.AcmeServer c then
       let le := mkLeaderElector (electorID c) in
       emit (EvNewLeaderElector (electorID c)) ;;;
       modify_hc (set_leaderelector (Some le)) ;;;
       emit EvNewSigner ;;;
       aq <- new_queue (NewFailureRateLimitingQueue
                          (Configuration.AcmeFailInitialDuration c)
                          (Configuration.AcmeFailMaxDuration c)
                          HAcmeNotify) ;;
       modify_hc (set_acmeQueue (Some aq)) ;;;
       ret (Some TheSigner)
     else ret None) ;;
  h <- get_hc ;;
  mo <- deref (maxOldConfigFiles h) ;;
  vc <- deref (validateConfig h) ;;
  let instanceOptions :=
    InstanceOptions.mk "/etc/haproxy" DefaultMapsDirectory
      (Configuration.BackendShards c) acmeSigner (acmeQueue h)
      (leaderelector h) (hc_metrics h) rs mo
      (Configuration.SortEndpointsBy c) (stopCh h) vc in
  emit (EvCreateInstance instanceOptions) ;;;
  modify_hc (set_instance (Some (mkInstance instanceOptions))) ;;;
  emit EvParseTemplates ;;;
  match ParseTemplates_err e with
  | Some err => fatal "error creating HAProxy instance: %v" [AStr err]
  | None =>
      fakeCrt <- createFakeCrtFile ;;
      fakeCA <- createFakeCAFile ;;
      h <- get_hc ;;
      modify_hc (set_converterOptions (Some
        (ConverterOptions.mk (hc_logger h) (cache h) (tracker h) (dynamicConfig h)
           (Configuration.MasterSocket c) (Configuration.AnnPrefix c)
           (Configuration.DefaultService c) (Configuration.DefaultSSLCertificate c)
           fakeCrt fakeCA (Configuration.AcmeTrackTLSAnn c) (hasGateway e))))
  end.

(** [startServices] *)
Definition startServices : M unit :=
  h <- get_hc ;;
  _ <- deref (cache h) ;;
  emit EvCacheRunAsync ;;;
  iq <- deref (ingressQueue h) ;;
  emit (EvGo (TQueueRun iq)) ;;;
  c <- deref (cfg h) ;;
  when (0 <? Milliseconds (Configuration.StatsCollectProcPeriod c))%Z
    (emit (EvGo (TCalcIdleMetric (Configuration.StatsCollectProcPeriod c)))) ;;;
  match leaderelector h with
  | Some le => emit (EvGo (TLeaderElectorRun le))
  | None => ret tt
  end ;;;
  when (Configuration.AcmeServer c)
    (match Listen_err e with
     | Some err =>
         _ <- deref (hc_logger h) ;;
         fatal "error creating the acme server listener: %v" [AStr err]
     | None => emit (EvAcmeListen "/var/run/haproxy/acme.sock")
     end ;;;
     aq <- deref (acmeQueue h) ;;
     emit (EvGo (TQueueRun aq)) ;;;
     emit (EvGo (TAcmePeriodicCheck (Configuration.AcmeCheckPeriod c)))) ;;;
  _ <- deref (controller h) ;;
  emit EvStartAsync.

(** [stopServices] *)
Definition stopServices : M unit :=
  h <- get_hc ;;
  iq <- deref (ingressQueue h) ;;
  Queue_ShutDown iq ;;;
  match acmeQueue h with
  | Some aq => Queue_ShutDown aq
  | None => ret tt
  end.

(** [<-hc.stopCh]: a receive on a nil channel never returns. *)
Definition receive_stopCh : M unit :=
  fun w =>
    match stopCh (hc w) with
    | Some _ => if stopFired w then emit EvStopChReceived w else (Blocked, w)
    | None => (Blocked, w)
    end.

(** [Start], up to the receive on the stop channel. *)
Definition Start_services : M unit :=
  ctl <- NewIngressController ;;
  modify_hc (set_controller (Some ctl)) ;;;
  configController ;;;
  startServices ;;;
  logger_Info "HAProxy Ingress successfully initialized" [].

(** [Start], from the receive on the stop channel on. *)
Definition Start_shutdown : M unit :=
  receive_stopCh ;;;
  stopServices.

(** [Start] *)
Definition Start : M unit :=
  Start_services ;;;
  Start_shutdown.

(** [AcmeCheck] *)
Definition AcmeCheck : M (Z * option string) :=
  h <- get_hc ;;
  _ <- deref (instance h) ;;
  emit (EvAcmeCheck "external call") ;;;
  ret (AcmeCheck_result e).

(** [OnStartedLeading] *)
Definition OnStartedLeading : M unit :=
  h <- get_hc ;;
  _ <- deref (instance h) ;;
  emit (EvAcmeCheck "started leading").

(** [OnStoppedLeading] *)
Definition OnStoppedLeading : M unit :=
  h <- get_hc ;;
  aq <- deref (acmeQueue h) ;;
  Queue_Clear aq.

(** [OnNewLeader] *)
Definition OnNewLeader (identity : string) : M unit :=
  logger_Info "leader changed to %s" [AStr identity].

(** [Stop] *)
Definition Stop : M (option string) :=
  h <- get_hc ;;
  c <- deref (cfg h) ;;
  when (0 <? Configuration.WaitBeforeShutdown c)%Z
    (let waitBeforeShutdown := int_mul (Configuration.WaitBeforeShutdown c) Second in
     emit (EvGlogInfo "Waiting %v before stopping components" [ADuration waitBeforeShutdown]) ;;;
     emit (EvSleep waitBeforeShutdown)) ;;;
  _ <- deref (controller h) ;;
  emit EvControllerStop ;;;
  ret (controller_Stop_err e).

(** [Name] *)
Definition Name : string := "HAProxy Ingress Controller".

(** [DefaultIngressClass] *)
Definition DefaultIngressClass : string := "haproxy".

(** [Check]: the request is ignored. *)
Definition Check {Request : Type} (_ : Request) : M (option string) :=
  ret None.

(** [syncIngress] *)
Definition syncIngress (item : Item) : M unit :=
  h <- get_hc ;;
  iq <- deref (ingressQueue h) ;;
  shuttingDown <- Queue_ShuttingDown iq ;;
  if shuttingDown then ret tt
  else
    modify_hc (fun h => set_updateCount (int_add (updateCount h) 1) h) ;;;
    h <- get_hc ;;
    logger_Info "starting haproxy update id=%d" [AInt (updateCount h)] ;;;
    _ <- deref (hc_metrics h) ;;
    timer <- NewTimer ;;
    _ <- deref (instance h) ;;
    emit EvInstanceConfig ;;;
    emit (EvConverterSync timer) ;;;
    emit (EvInstanceUpdate timer) ;;;
    h <- get_hc ;;
    logger_Info "finish haproxy update id=%d: %s" [AInt (updateCount h); ATimerTotal timer].

(** Modelled from the spec: one iteration of [Queue.Run] on queue [r].  The
    next pending key is handed to the queue's processing function; a
    failure-backoff queue schedules the key again when the function reports
    failure ([ok] is what [acmeSigner.Notify] answers). *)
Definition Queue_work (r : qref) (ok : bool) : M unit :=
  q <- read_queue r ;;
  match queue_Get q with
  | None => ret tt
  | Some (it, q') =>
      write_queue r q' ;;;
      match q_handler q with
      | HSyncIngress => syncIngress it
      | HAcmeNotify =>
          emit (EvAcmeNotify it) ;;;
          when (negb ok) (Queue_Add r it)
      end
  end.

End Controller.

(** ** The running controller

    Once [Start] has built and started the components, the controller is
    driven from outside: the cache and the proxy instance add keys to the
    queues, each queue's [Run] goroutine hands keys to its processing
    function, the leader elector delivers its callbacks, the health and
    ACME endpoints are called, and a shutdown is requested. *)

Inductive Op :=
| OpEnqueue (acme : bool) (item : Item)   (* a key is added to a queue *)
| OpWork (acme : bool) (ok : bool)        (* one iteration of a queue's Run *)
| OpStartedLeading                        (* callbacks of the leader elector *)
| OpStoppedLeading
| OpNewLeader (identity : string)
| OpAcmeCheck
| OpCheck
| OpSetConfig (cm : option ConfigMap)
| OpStop
| OpCloseStopCh                           (* the stop channel is closed *)
| OpStartShutdown.                        (* [Start] goes on past the receive *)

Definition queue_of (acme : bool) (h : HAProxyController) : option qref :=
  if acme then acmeQueue h else ingressQueue h.

(** The callbacks are delivered by the leader elector; without an elector
    there is nobody to call them. *)
Definition by_elector (c : M unit) : M unit :=
  h <- get_hc ;;
  match leaderelector h with
  | Some _ => c
  | None => ret tt
  end.

Definition close_stopCh : M unit :=
  fun w => (Done tt, mkWorld (hc w) (queues w) (timers w) true (trace w)).

Section Running.

Variable e : Env.

Definition exec (op : Op) : M unit :=
  match op with
  | OpEnqueue acme it =>
      h <- get_hc ;;
      match queue_of acme h with
      | Some r => Queue_Add r it
      | None => ret tt
      end
  | OpWork acme ok =>
      h <- get_hc ;;
      match queue_of acme h with
      | Some r => Queue_work r ok
      | None => ret tt
      end
  | OpStartedLeading => by_elector OnStartedLeading
  | OpStoppedLeading => by_elector OnStoppedLeading
  | OpNewLeader identity => by_elector (OnNewLeader identity)
  | OpAcmeCheck => _ <- AcmeCheck e ;; ret tt
  | OpCheck => _ <- Check tt ;; ret tt
  | OpSetConfig cm => SetConfig cm
  | OpStop => _ <- Stop e ;; ret tt
  | OpCloseStopCh => close_stopCh
  | OpStartShutdown => Start_shutdown
  end.

(** The world after a sequence of operations.  An operation that cannot
    proceed (a goroutine blocked on the stop channel) leaves the world as
    it is. *)
Fixpoint exec_all (ops : list Op) (w : World) : World :=
  match ops with
  | [] => w
  | op :: rest => exec_all rest (exec op w).2
  end.

End Running.

Definition initial_world : World :=
  mkWorld NewHAProxyController [] 0 false [].

Definition handler_of (r : qref) (w : World) : option Handler :=
  q_handler <$> queues w !! r.

Definition pending_of (r : qref) (w : World) : list Item :=
  match queues w !! r with
  | Some q => q_pending q
  | None => []
  end.

(** The keys waiting in the Failure-Backoff Queue. *)
Definition acme_pending (w : World) : list Item :=
  match acmeQueue (hc w) with
  | Some aq => pending_of aq w
  | None => []
  end.

(** What [hc.ingressQueue.ShuttingDown()] answers in a world, when the
    queue exists. *)
Definition ingress_shuttingDown (w : World) : option bool :=
  iq ← ingressQueue (hc w); q ← queues w !! iq; Some (q_shuttingDown q).

(** The calls one reconciliation makes, with update id [id] and timer [t]. *)
Definition sync_events (id : Z) (t : Timer) : list Event :=
  [ EvInfo "starting haproxy update id=%d" [AInt id];
    EvNewTimer t;
    EvInstanceConfig;
    EvConverterSync t;
    EvInstanceUpdate t;
    EvInfo "finish haproxy update id=%d: %s" [AInt id; ATimerTotal t] ].

(** A controller whose components have been built: what [configController]
    leaves behind, and what every later operation keeps. *)
Record configured (w : World) : Prop := mkConfigured {
  cf_logger : is_Some (hc_logger (hc w));
  cf_metrics : is_Some (hc_metrics (hc w));
  cf_instance : is_Some (instance (hc w));
  cf_cfg : is_Some (cfg (hc w));
  cf_controller : is_Some (controller (hc w));
  cf_stopCh : is_Some (stopCh (hc w));
  cf_ingress : exists iq, ingressQueue (hc w) = Some iq
                          /\ handler_of iq w = Some HSyncIngress;
  cf_acme : forall aq, acmeQueue (hc w) = Some aq ->
                       handler_of aq w = Some HAcmeNotify;
  cf_elector : is_Some (leaderelector (hc w)) <-> is_Some (acmeQueue (hc w));
  cf_count : min_int <= updateCount (hc w) <= max_int
}.

(** Two worlds with the same components: the fields that point to them,
    and the processing function of every queue. *)
Record same_wiring (w w' : World) : Prop := mkSameWiring {
  sw_logger : hc_logger (hc w') = hc_logger (hc w);
  sw_metrics : hc_metrics (hc w') = hc_metrics (hc w);
  sw_instance : instance (hc w') = instance (hc w);
  sw_cfg : cfg (hc w') = cfg (hc w);
  sw_controller : controller (hc w') = controller (hc w);
  sw_stopCh : stopCh (hc w') = stopCh (hc w);
  sw_ingressQueue : ingressQueue (hc w') = ingressQueue (hc w);
  sw_acmeQueue : acmeQueue (hc w') = acmeQueue (hc w);
  sw_leaderelector : leaderelector (hc w') = leaderelector (hc w);
  sw_handlers : forall r, handler_of r w' = handler_of r w
}.

(** ** Observations on traces and runs *)

Definition is_finish (ev : Event) : bool :=
  match ev with
  | EvInfo fmt _ => String.eqb fmt "finish haproxy update id=%d: %s"
  | _ => false
  end.

(** The number of reconciliations a trace has seen to their end. *)
Definition completed (tr : list Event) : nat := length (filter is_finish tr).

(** The footprint of an operation that added the calls [evs] to the trace. *)
Record effect (op : Op) (w : World) (r : Res unit) (w' : World)
    (evs : list Event) : Prop := mkEffect {
  ef_trace : trace w' = trace w ++ evs;
  ef_no_panic : r <> Panic;
  ef_wiring : same_wiring w w';
  ef_count :
    (updateCount (hc w') = updateCount (hc w) /\ completed evs = 0%nat)
    \/ (updateCount (hc w') = int_add (updateCount (hc w)) 1
        /\ completed evs = 1%nat);
  ef_notify : forall it, EvAcmeNotify it ∈ evs -> it ∈ acme_pending w;
  ef_pending : forall it, it ∈ acme_pending w' ->
                          it ∈ acme_pending w \/ op = OpEnqueue true it
}.

(** ** Startup and shutdown *)

(** [Start], up to and including [configController]. *)
Definition Start_config (e : Env) (d : string) : M unit :=
  ctl <- NewIngressController e ;;
  modify_hc (set_controller (Some ctl)) ;;;
  configController e d.

(** The reload strategy the flag ends up holding: the command line's, or
    the default. *)
Definition strategy (e : Env) : string :=
  default "reusesocket" (arg_reload_strategy e).

(** The same deployment with [--reload-strategy=rs]. *)
Definition with_strategy (rs : string) (e : Env) : Env :=
  mkEnv (Some rs) (arg_max_old_config_files e) (arg_validate_config e)
        (has_ingress_class_flag e) (GetConfig e) (ParseTemplates_err e)
        (CreateDefaultSSLCertificate e) (AddCertAuth e) (hasGateway e)
        (Listen_err e) (controller_Stop_err e) (AcmeCheck_result e).

Definition deprecation_warning : Event :=
  EvWarning "multibinder is deprecated, using reusesocket strategy instead. update your deployment configuration" [].

Definition present {A} (o : option A) : bool :=
  match o with Some _ => true | None => false end.

Definition is_deprecation_warning (ev : Event) : bool :=
  match ev with EvWarning _ _ => true | _ => false end.
Definition is_create_instance (ev : Event) : bool :=
  match ev with EvCreateInstance _ => true | _ => false end.
Definition is_new_elector (ev : Event) : bool :=
  match ev with EvNewLeaderElector _ => true | _ => false end.
Definition is_new_signer (ev : Event) : bool :=
  match ev with EvNewSigner => true | _ => false end.
Definition is_elector_run (ev : Event) : bool :=
  match ev with EvGo (TLeaderElectorRun _) => true | _ => false end.
Definition is_acme_listen (ev : Event) : bool :=
  match ev with EvAcmeListen _ => true | _ => false end.
Definition is_periodic_check (ev : Event) : bool :=
  match ev with EvGo (TAcmePeriodicCheck _) => true | _ => false end.
Definition is_queue_run (r : qref) (ev : Event) : bool :=
  match ev with EvGo (TQueueRun r') => Nat.eqb r r' | _ => false end.
Definition is_new_queue (ev : Event) : bool :=
  match ev with EvNewQueue _ => true | _ => false end.
Definition is_go (ev : Event) : bool :=
  match ev with EvGo _ => true | _ => false end.

Definition is_acme_notify (ev : Event) : bool :=
  match ev with EvAcmeNotify _ => true | _ => false end.

(** Which of the certificate-issuance components exist or run in a world. *)
Record AcmeServices := mkAcmeServices {
  elector_built : bool;       (* hc.leaderelector is not nil *)
  signer_built : bool;        (* acme.NewSigner was called *)
  queue_built : bool;         (* hc.acmeQueue is not nil *)
  elector_running : bool;     (* go hc.leaderelector.Run(hc.stopCh) *)
  listener_open : bool;       (* the control socket listens *)
  queue_running : bool;       (* go hc.acmeQueue.Run() *)
  periodic_check_running : bool   (* go wait.JitterUntil(AcmeCheck) *)
}.

Definition acme_services (w : World) : AcmeServices :=
  mkAcmeServices
    (present (leaderelector (hc w)))
    (existsb is_new_signer (trace w))
    (present (acmeQueue (hc w)))
    (existsb is_elector_run (trace w))
    (existsb is_acme_listen (trace w))
    (match acmeQueue (hc w) with
     | Some aq => existsb (is_queue_run aq) (trace w)
     | None => false
     end)
    (existsb is_periodic_check (trace w)).

Definition all_acme (b : bool) : AcmeServices :=
  mkAcmeServices b b b b b b b.

(** What a startup that completes leaves behind. *)
Record started (e : Env) (w : World) : Prop := mkStarted {
  st_configured : configured w;
  st_count : updateCount (hc w) = 0;
  st_completed : completed (trace w) = 0%nat;
  st_accepting : ingress_shuttingDown w = Some false;
  st_not_stopped : stopFired w = false;
  st_supported : supported_strategy (strategy e) = true;
  st_strategy :
    InstanceOptions.ReloadStrategy ∘ inst_options <$> instance (hc w)
    = Some (strategy e);
  st_warning :
    filter is_deprecation_warning (trace w)
    = if String.eqb (strategy e) "multibinder" then [deprecation_warning] else [];
  st_elector :
    le_id <$> leaderelector (hc w)
    = if Configuration.AcmeServer (GetConfig e)
      then Some (electorID (GetConfig e)) else None
}.

Definition beside_strategy (ev : Event) : bool :=
  negb (is_deprecation_warning ev || is_create_instance ev).

(** The grace period of [Stop]: nothing unless [WaitBeforeShutdown] is
    positive. *)
Definition grace_events (c : Configuration.t) : list Event :=
  if 0 <? Configuration.WaitBeforeShutdown c then
    [ EvGlogInfo "Waiting %v before stopping components"
        [ADuration (int_mul (Configuration.WaitBeforeShutdown c) Second)];
      EvSleep (int_mul (Configuration.WaitBeforeShutdown c) Second) ]
  else [].

Definition shutdown_events (w : World) : list Event :=
  match ingressQueue (hc w) with
  | Some iq => [EvStopChReceived; EvQueueShutDown iq]
  | None => []
  end ++
  match acmeQueue (hc w) with
  | Some aq => [EvQueueShutDown aq]
  | None => []
  end.

Definition acme_shuttingDown (w : World) : option bool :=
  aq ← acmeQueue (hc w); q ← queues w !! aq; Some (q_shuttingDown q).

(** A controller that was started and has been driven for a while. *)
Definition running (e : Env) (d : string) (w : World) : Prop :=
  exists w0 ops,
    Start_services e d initial_world = (Done tt, w0) /\ w = exec_all e ops w0.

(** ** Example deployments *)

Definition example_cfg (acme : bool) (wait : Z) : Configuration.t :=
  Configuration.mk [] (1 # 2) false acme "acme-leader" "haproxy"
    300000000000 3600000000000 86400000000000 false 0 "" ""
    "ingress.kubernetes.io" "" "" 500000000 wait.

Definition example_env (rs : option string) (acme : bool) (wait : Z) : Env :=
  mkEnv rs None None true (example_cfg acme wait) None
    ("/ingress-controller/ssl/default-fake-certificate.pem", "da39a3ee",
     mkCertificate "Kubernetes Ingress Controller Fake Certificate" 0)
    (inl (mkSSLCert "/ingress-controller/cacerts/fake-ca.pem" "5ba93c9d"))
    false None None (0, None).

Definition example_maps : string := "/etc/haproxy/maps".

(** The controller right after a startup with ACME enabled and a grace
    period of five seconds. *)
Definition started_world : World :=
  (Start_services (example_env None true 5) example_maps initial_world).2.

Definition two_reconciliations : list Op :=
  [OpEnqueue false "resync"; OpWork false true;
   OpEnqueue false "resync"; OpWork false true].

Definition two_pending : list Op :=
  [OpEnqueue true "tls/www.example.com"; OpEnqueue true "tls/api.example.com"].

(** A deployment with ACME enabled, election ID [base] and ingress class
    [class]. *)
Definition env_with_ids (base class : string) : Env :=
  mkEnv None None None true
    (Configuration.mk [] (1 # 2) false true base class
       300000000000 3600000000000 86400000000000 false 0 "" ""
       "ingress.kubernetes.io" "" "" 500000000 0)
    None
    ("/ingress-controller/ssl/default-fake-certificate.pem", "da39a3ee",
     mkCertificate "Kubernetes Ingress Controller Fake Certificate" 0)
    (inl (mkSSLCert "/ingress-controller/cacerts/fake-ca.pem" "5ba93c9d"))
    false None None (0, None).

(** ** Observations on the startup *)

Definition is_fatal (ev : Event) : bool :=
  match ev with EvFatal _ _ => true | _ => false end.
Definition is_cache_run (ev : Event) : bool :=
  match ev with EvCacheRunAsync => true | _ => false end.
Definition is_start_async (ev : Event) : bool :=
  match ev with EvStartAsync => true | _ => false end.
Definition is_calc_idle (ev : Event) : bool :=
  match ev with EvGo (TCalcIdleMetric _) => true | _ => false end.

(** What [startServices] starts: the cache, the goroutines, the ACME
    listener and the external controller. *)
Definition is_service (ev : Event) : bool :=
  is_cache_run ev || is_go ev || is_acme_listen ev || is_start_async ev.


(** The checks of the startup that end the process, in the order the code
    makes them, with the message each one logs. *)
Definition fatal_event (e : Env) : option Event :=
  if negb (supported_strategy (strategy e)) then
    Some (EvFatal "Unsupported reload strategy: %v" [AStr (strategy e)])
  else
    match ParseTemplates_err e, AddCertAuth e, Listen_err e with
    | Some err, _, _ =>
        Some (EvFatal "error creating HAProxy instance: %v" [AStr err])
    | None, inr err, _ =>
        Some (EvFatal "error generating fake CA: %v" [AStr err])
    | None, inl _, Some err =>
        if Configuration.AcmeServer (GetConfig e)
        then Some (EvFatal "error creating the acme server listener: %v" [AStr err])
        else None
    | None, inl _, None => None
    end.



(** The options [configController] hands to [haproxy.CreateInstance], in a
    controller whose fields are [h]. *)
Definition expected_instance_options (e : Env) (d : string) (h : HAProxyController)
    : InstanceOptions.t :=
  let c := GetConfig e in
  InstanceOptions.mk "/etc/haproxy" d (Configuration.BackendShards c)
    (if Configuration.AcmeServer c then Some TheSigner else None)
    (acmeQueue h) (leaderelector h) (hc_metrics h)
    (strategy e) (default 0 (arg_max_old_config_files e))
    (Configuration.SortEndpointsBy c) (stopCh h)
    (default false (arg_validate_config e)).

(** The options with the reload strategy blanked. *)
Definition without_ReloadStrategy (o : InstanceOptions.t) : InstanceOptions.t :=
  InstanceOptions.mk
    (InstanceOptions.HAProxyCfgDir o) (InstanceOptions.HAProxyMapsDir o)
    (InstanceOptions.BackendShards o) (InstanceOptions.AcmeSigner o)
    (InstanceOptions.AcmeQueue o) (InstanceOptions.LeaderElector o)
    (InstanceOptions.Metrics o) EmptyString
    (InstanceOptions.MaxOldConfigFiles o) (InstanceOptions.SortEndpointsBy o)
    (InstanceOptions.StopCh o) (InstanceOptions.ValidateConfig o).

Definition erase_strategy_event (ev : Event) : Event :=
  match ev with
  | EvCreateInstance o => EvCreateInstance (without_ReloadStrategy o)
  | _ => ev
  end.

(** A world without the places that tell the reload strategy: the flag
    behind [hc.reloadStrategy], the [ReloadStrategy] option of the
    instance and of the call that created it, and the deprecation
    warning.  Everything else is kept: every other field of the
    controller, every other option of the instance, the queues, the
    timers, the stop channel and every other call with its arguments. *)
Definition erase_strategy (w : World) : World :=
  mkWorld
    (set_reloadStrategy None
       (set_instance
          (mkInstance ∘ without_ReloadStrategy ∘ inst_options <$> instance (hc w))
          (hc w)))
    (queues w) (timers w) (stopFired w)
    (erase_strategy_event
       <$> List.filter (fun ev => negb (is_deprecation_warning ev)) (trace w)).

(** ** Observations on the running controller *)

(** The result of an operation on a controller whose components exist:
    only the receive on an open stop channel does not complete. *)
Definition exec_result (op : Op) (w : World) : Res unit :=
  match op with
  | OpStartShutdown => if stopFired w then Done tt else Blocked
  | _ => Done tt
  end.

(** The world with another ConfigMap stored in the controller. *)
Definition with_configMap (cm : option ConfigMap) (w : World) : World :=
  mkWorld (set_configMap cm (hc w)) (queues w) (timers w) (stopFired w) (trace w).

Definition is_SetConfig (op : Op) : bool :=
  match op with OpSetConfig _ => true | _ => false end.

(** A computation that neither reads nor writes [hc.configMap]. *)
Definition ignores_configMap {A} (c : M A) : Prop :=
  forall cm w, c (with_configMap cm w) = ((c w).1, with_configMap cm (c w).2).

(** ** A reconciliation in flight

    The worker of the Work Queue runs [syncIngress] in a goroutine of its
    own (line 155), while [Start] goes through [stopServices] in another
    (line 90) and the callbacks arrive from others still: between the test
    of line 312 and the end of the handler the rest of the controller
    moves on. *)

(** [syncIngress], lines 312 to 314: the test. *)
Definition syncIngress_test : M bool :=
  h <- get_hc ;;
  iq <- deref (ingressQueue h) ;;
  Queue_ShuttingDown iq.

(** [syncIngress], lines 316 to 326: the reconciliation that follows a
    negative test. *)
Definition syncIngress_rest : M unit :=
  modify_hc (fun h => set_updateCount (int_add (updateCount h) 1) h) ;;;
  h <- get_hc ;;
  logger_Info "starting haproxy update id=%d" [AInt (updateCount h)] ;;;
  _ <- deref (hc_metrics h) ;;
  timer <- NewTimer ;;
  _ <- deref (instance h) ;;
  emit EvInstanceConfig ;;;
  emit (EvConverterSync timer) ;;;
  emit (EvInstanceUpdate timer) ;;;
  h <- get_hc ;;
  logger_Info "finish haproxy update id=%d: %s" [AInt (updateCount h); ATimerTotal timer].

(** Modelled from the spec: the worker of the Work Queue takes the next
    key, if any, and enters the handler.  The answer tells if the handler
    got past its test: a reconciliation is then in flight. *)
Definition worker_begin : M bool :=
  h <- get_hc ;;
  iq <- deref (ingressQueue h) ;;
  q <- read_queue iq ;;
  match queue_Get q with
  | None => ret false
  | Some (it, q') =>
      write_queue iq q' ;;;
      shuttingDown <- syncIngress_test ;;
      ret (negb shuttingDown)
  end.








(** ** More example deployments *)

(** A deployment whose templates do not parse. *)
Definition broken_templates_env : Env :=
  mkEnv None None None true (example_cfg true 0)
    (Some "template: haproxy.tmpl:1: unexpected EOF")
    ("/ingress-controller/ssl/default-fake-certificate.pem", "da39a3ee",
     mkCertificate "Kubernetes Ingress Controller Fake Certificate" 0)
    (inl (mkSSLCert "/ingress-controller/cacerts/fake-ca.pem" "5ba93c9d"))
    false None None (0, None).

(** A deployment with ACME enabled whose control socket cannot be bound. *)
Definition busy_socket_env : Env :=
  mkEnv None None None true (example_cfg true 0) None
    ("/ingress-controller/ssl/default-fake-certificate.pem", "da39a3ee",
     mkCertificate "Kubernetes Ingress Controller Fake Certificate" 0)
    (inl (mkSSLCert "/ingress-controller/cacerts/fake-ca.pem" "5ba93c9d"))
    false (Some "listen unix /var/run/haproxy/acme.sock: bind: address already in use")
    None (0, None).




(** A started controller with one key waiting in the Work Queue. *)
Definition one_pending_world : World :=
  exec_all (example_env None true 5) [OpEnqueue false "resync"] started_world.

(** * Proofs *)

(** ** Basic facts *)

Lemma wrap_int_id z : min_int <= z <= max_int -> wrap_int z = z.
Proof.
  unfold wrap_int, min_int, max_int. intros H.
  rewrite Z.mod_small by lia. lia.
Qed.

Lemma wrap_int_range z : min_int <= wrap_int z <= max_int.
Proof.
  unfold wrap_int, min_int, max_int.
  pose proof (Z.mod_pos_bound (z + 2 ^ 63) (2 ^ 64)). lia.
Qed.

Lemma int_add_1 z : min_int <= z < max_int -> int_add z 1 = z + 1.
Proof. intros H. unfold int_add. apply wrap_int_id. lia. Qed.


Lemma ingress_shuttingDown_inv w b :
  ingress_shuttingDown w = Some b ->
  exists iq q, ingressQueue (hc w) = Some iq /\ queues w !! iq = Some q
               /\ q_shuttingDown q = b.
Proof.
  unfold ingress_shuttingDown. intros H.
  destruct (ingressQueue (hc w)) as [iq|]; [|done].
  cbn in H. destruct (queues w !! iq) as [q|] eqn:Hq; [|done].
  exists iq, q. by inversion H.
Qed.

(** Unfolding of the monad's primitives. *)
Ltac run_prims :=
  cbv [bind ret get_hc modify_hc deref emit fatal when new_queue read_queue
       write_queue Queue_ShuttingDown Queue_ShutDown Queue_Clear Queue_Add
       NewTimer logger_Info by_elector close_stopCh receive_stopCh].

(** The handler does nothing at all during drain. *)
Lemma syncIngress_shuttingDown w item :
  ingress_shuttingDown w = Some true ->
  syncIngress item w = (Done tt, w).
Proof.
  intros (iq & q & Hiq & Hq & Hsd)%ingress_shuttingDown_inv.
  unfold syncIngress. run_prims.
  rewrite Hiq, Hq. by rewrite Hsd.
Qed.

(** One reconciliation, step by step. *)
Lemma syncIngress_running w item :
  configured w ->
  ingress_shuttingDown w = Some false ->
  syncIngress item w =
    (Done tt,
     mkWorld (set_updateCount (int_add (updateCount (hc w)) 1) (hc w))
             (queues w) (S (timers w)) (stopFired w)
             (trace w ++ sync_events (int_add (updateCount (hc w)) 1) (timers w))).
Proof.
  intros Hc (iq & q & Hiq & Hq & Hsd)%ingress_shuttingDown_inv.
  destruct Hc as [[lg Hlg] [mt Hmt] [inst Hinst] _ _ _ _ _ _ _].
  destruct w as [h qs tm sf tr]. destruct h. simpl in *. subst.
  unfold syncIngress. run_prims. simpl.
  rewrite Hq, Hsd. simpl.
  unfold sync_events. rewrite <- !app_assoc. reflexivity.
Qed.

Lemma configured_same_wiring w w' :
  configured w -> same_wiring w w' ->
  min_int <= updateCount (hc w') <= max_int ->
  configured w'.
Proof.
  intros [] [] ?. constructor; try congruence.
  - destruct cf_ingress0 as (iq & ? & ?). exists iq. split; congruence.
  - intros aq Haq. rewrite sw_handlers0. apply cf_acme0. congruence.
Qed.

Lemma handlers_insert (qs : list Queue) r q q' :
  qs !! r = Some q -> q_handler q' = q_handler q ->
  forall r0, q_handler <$> <[r:=q']> qs !! r0 = q_handler <$> qs !! r0.
Proof.
  intros Hq Hh r0. rewrite list_lookup_insert. case_decide as Hd; [|done].
  destruct Hd as [-> _]. rewrite Hq. simpl. by f_equal.
Qed.

Lemma lookup_insert_same (qs : list Queue) r q q' :
  qs !! r = Some q -> <[r:=q']> qs !! r = Some q'.
Proof. intros Hq. apply list_lookup_insert_eq. by eapply lookup_lt_Some. Qed.

Lemma queue_Add_handler it q : q_handler (queue_Add it q) = q_handler q.
Proof. unfold queue_Add. by repeat case_match. Qed.

Lemma queue_Add_pending it it' q :
  it' ∈ q_pending (queue_Add it q) -> it' ∈ q_pending q \/ it' = it.
Proof.
  unfold queue_Add. repeat case_match; simpl; auto.
  rewrite elem_of_app, list_elem_of_singleton. tauto.
Qed.

Lemma acme_pending_eq w aq q :
  acmeQueue (hc w) = Some aq -> queues w !! aq = Some q ->
  acme_pending w = q_pending q.
Proof. intros Haq Hq. unfold acme_pending, pending_of. by rewrite Haq, Hq. Qed.

Lemma acme_pending_ext w w' :
  acmeQueue (hc w') = acmeQueue (hc w) ->
  (forall aq, acmeQueue (hc w) = Some aq -> queues w' !! aq = queues w !! aq) ->
  acme_pending w' = acme_pending w.
Proof.
  intros Haq Hq. unfold acme_pending, pending_of. rewrite Haq.
  destruct (acmeQueue (hc w)) as [aq|]; [|done]. by rewrite Hq.
Qed.

Ltac run_methods :=
  cbv [exec Queue_work syncIngress OnStartedLeading OnStoppedLeading
       OnNewLeader AcmeCheck Check SetConfig Stop Start_shutdown stopServices
       queue_of queue_Get];
  run_prims.

Ltac solve_tr :=
  first [ exact (eq_sym (app_nil_r _)) | rewrite <- ?app_assoc; reflexivity ].

Ltac solve_notify :=
  let Hin := fresh "Hin" in
  intros ? Hin; simpl in Hin;
  repeat (apply elem_of_cons in Hin as [Hin|Hin]; [try discriminate|]);
  try (by apply elem_of_nil in Hin).

Ltac solve_wiring :=
  constructor; simpl; try done;
  try (unfold handler_of; simpl;
       first [ done
             | eapply handlers_insert; [eassumption|];
               first [ done
                     | by (rewrite ?queue_Add_handler; simpl in *; congruence) ] ]).

Ltac quiet_effect :=
  eexists; constructor; simpl;
  [solve_tr|done|solve_wiring|by left|solve_notify|auto].

Lemma exec_effect e op w :
  configured w ->
  exists evs, effect op w (exec e op w).1 (exec e op w).2 evs.
Proof.
  intros [[lg Hlg] [mt Hmt] [inst Hinst] [c Hc] [ctl Hctl] [sc Hsc]
            (iq & Hiq & Hih) Hacme Hel Hcnt].
  destruct w as [[i l ca m t s iqo aqo leo u ct cf cm co dc rs mo vc] qs tm sf tr].
  unfold handler_of in *. simpl in *. subst.
  destruct (qs !! iq) as [qi|] eqn:Hqi; [|done].
  assert (Hacme' : forall aq, aqo = Some aq ->
            exists q, qs !! aq = Some q /\ q_handler q = HAcmeNotify /\ aq <> iq).
  { intros aq Haq. specialize (Hacme aq Haq).
    destruct (qs !! aq) as [q|] eqn:Hq; [|done]. simpl in *.
    exists q. split; [done|]. split; [congruence|].
    intros ->. congruence. }
  clear Hacme. simplify_eq.
  destruct op.
  - (* OpEnqueue *)
    run_methods. simpl. destruct acme; simpl.
    + destruct aqo as [aq|]; simpl; [|quiet_effect].
      destruct (Hacme' aq eq_refl) as (q & Hq & Hh & Hne). rewrite Hq.
      eexists; constructor; simpl;
        [solve_tr|done|solve_wiring|by left|solve_notify|].
      intros it.
      erewrite (acme_pending_eq _ aq); [|done|by eapply lookup_insert_same].
      erewrite (acme_pending_eq _ aq q); [|done|done].
      intros [?| ->]%queue_Add_pending; auto.
    + rewrite Hqi.
      eexists; constructor; simpl;
        [solve_tr|done|solve_wiring|by left|solve_notify|].
      intros it Hit. left. erewrite acme_pending_ext in Hit; [done|done|].
      simpl. intros aq Haq. destruct (Hacme' aq Haq) as (? & ? & ? & ?).
      by apply list_lookup_insert_ne.
  - (* OpWork *)
    run_methods. simpl. destruct acme; simpl.
    + destruct aqo as [aq|]; simpl; [|quiet_effect].
      destruct (Hacme' aq eq_refl) as (q & Hq & Hh & Hne). rewrite Hq.
      destruct (q_pending q) as [|it0 rest] eqn:Hp; simpl; [quiet_effect|].
      rewrite Hh. simpl. destruct ok; simpl.
      { eexists; constructor; simpl; [solve_tr|done|solve_wiring|by left| |].
        - solve_notify. simplify_eq.
          erewrite (acme_pending_eq _ aq q); [|done|done].
          rewrite Hp. by left.
        - intros it.
          erewrite (acme_pending_eq _ aq); [|done|by eapply lookup_insert_same].
          erewrite (acme_pending_eq _ aq q); [|done|done].
          simpl. rewrite Hp. intros ?. left. by right. }
      rewrite (lookup_insert_same _ _ _ _ Hq). simpl.
      rewrite list_insert_insert_eq.
      eexists; constructor; simpl; [solve_tr|done|solve_wiring|by left| |].
      * solve_notify. simplify_eq.
        erewrite (acme_pending_eq _ aq q); [|done|done].
        rewrite Hp. by left.
      * intros it.
        erewrite (acme_pending_eq _ aq); [|done|by eapply lookup_insert_same].
        erewrite (acme_pending_eq _ aq q); [|done|done].
        rewrite Hp. intros [?| ->]%queue_Add_pending; left; [by right|by left].
    + rewrite Hqi. destruct (q_pending qi) as [|it0 rest] eqn:Hp; simpl;
        [quiet_effect|].
      simpl in Hih. simplify_eq. rewrite Hih. simpl.
      rewrite (lookup_insert_same _ _ _ _ Hqi). simpl.
      assert (Hpend : forall h tm' sf' tr' q' it,
                acmeQueue h = aqo ->
                it ∈ acme_pending (mkWorld h (<[iq:=q']> qs) tm' sf' tr') ->
                it ∈ acme_pending (mkWorld h qs tm sf tr)).
      { intros h tm' sf' tr' q' it Hh Hit.
        erewrite acme_pending_ext in Hit; [done|done|].
        simpl. rewrite Hh. intros aq Haq.
        destruct (Hacme' aq Haq) as (? & ? & ? & ?).
        by apply list_lookup_insert_ne. }
      destruct (q_shuttingDown qi); simpl.
      * eexists; constructor; simpl;
          [solve_tr|done|solve_wiring|by left|solve_notify|].
        intros it Hit. left. by eapply Hpend in Hit.
      * eexists; constructor; simpl;
          [solve_tr|done|solve_wiring|by right|solve_notify|].
        intros it Hit. left. by eapply Hpend in Hit.
  - (* OpStartedLeading *)
    run_methods. simpl. destruct leo; simpl; quiet_effect.
  - (* OpStoppedLeading *)
    run_methods. simpl. destruct leo as [le|]; simpl; [|quiet_effect].
    destruct Hel as [Hel _]. destruct (Hel (mk_is_Some _ _ eq_refl)) as [aq ->].
    simpl. destruct (Hacme' aq eq_refl) as (q & Hq & Hh & Hne). rewrite Hq.
    eexists; constructor; simpl;
      [solve_tr|done|solve_wiring|by left|solve_notify|].
    intros it.
    erewrite (acme_pending_eq _ aq); [|done|by eapply lookup_insert_same].
    simpl. by intros ?%elem_of_nil.
  - (* OpNewLeader *)
    run_methods. simpl. destruct leo; simpl; quiet_effect.
  - (* OpAcmeCheck *)
    run_methods. simpl. quiet_effect.
  - (* OpCheck *)
    run_methods. simpl. quiet_effect.
  - (* OpSetConfig *)
    run_methods. simpl. quiet_effect.
  - (* OpStop *)
    run_methods. simpl.
    destruct (0 <? Configuration.WaitBeforeShutdown c); simpl; quiet_effect.
  - (* OpCloseStopCh *)
    run_methods. simpl. quiet_effect.
  - (* OpStartShutdown *)
    run_methods. simpl. destruct sf; simpl; [|quiet_effect].
    rewrite Hqi. simpl. destruct aqo as [aq|]; simpl; [|quiet_effect].
    destruct (Hacme' aq eq_refl) as (q & Hq & Hh & Hne).
    assert (Hq' : <[iq:=queue_ShutDown qi]> qs !! aq = Some q)
      by (by rewrite list_lookup_insert_ne).
    rewrite Hq'. simpl.
    eexists; constructor; simpl; [solve_tr|done| |by left|solve_notify|].
    + constructor; simpl; try done. intros r0. unfold handler_of. simpl.
      etrans; [by eapply handlers_insert|by eapply handlers_insert].
    + intros it.
      erewrite (acme_pending_eq _ aq); [|done|by eapply lookup_insert_same].
      erewrite (acme_pending_eq _ aq q); [|done|done]. auto.
Qed.

Lemma same_wiring_refl w : same_wiring w w.
Proof. by constructor. Qed.

Lemma same_wiring_trans w1 w2 w3 :
  same_wiring w1 w2 -> same_wiring w2 w3 -> same_wiring w1 w3.
Proof. intros [] []. constructor; intros; etrans; eauto. Qed.

Lemma effect_configured op w r w' evs :
  configured w -> effect op w r w' evs -> configured w'.
Proof.
  intros Hc []. eapply configured_same_wiring; [done|done|].
  destruct ef_count0 as [[-> _]|[-> _]]; [apply Hc|apply wrap_int_range].
Qed.

Lemma exec_configured e op w :
  configured w -> configured (exec e op w).2.
Proof.
  intros Hc. destruct (exec_effect e op w Hc) as [evs He].
  by eapply effect_configured.
Qed.

Lemma completed_app tr1 tr2 :
  completed (tr1 ++ tr2) = (completed tr1 + completed tr2)%nat.
Proof. unfold completed. by rewrite filter_app, length_app. Qed.

Lemma wrap_int_add_l a b : wrap_int (wrap_int a + b) = wrap_int (a + b).
Proof.
  unfold wrap_int.
  replace ((a + 2 ^ 63) mod 2 ^ 64 - 2 ^ 63 + b + 2 ^ 63)
    with ((a + 2 ^ 63) mod 2 ^ 64 + b) by lia.
  rewrite Zplus_mod_idemp_l. f_equal. f_equal. lia.
Qed.

(** The footprint of a whole run: the counter follows the number of
    reconciliations seen to their end, and the issuance handler is only
    invoked for keys that were waiting or were added meanwhile. *)
Lemma exec_all_effect e ops w :
  configured w ->
  exists evs,
    trace (exec_all e ops w) = trace w ++ evs
    /\ updateCount (hc (exec_all e ops w))
       = wrap_int (updateCount (hc w) + Z.of_nat (completed evs))
    /\ (forall it, EvAcmeNotify it ∈ evs ->
                   it ∈ acme_pending w \/ OpEnqueue true it ∈ ops)
    /\ same_wiring w (exec_all e ops w)
    /\ configured (exec_all e ops w).
Proof.
  revert w. induction ops as [|op ops IH]; intros w Hc; simpl.
  - exists []. rewrite app_nil_r, Z.add_0_r, wrap_int_id by apply Hc.
    split_and!;
      first [ done | apply same_wiring_refl | by intros it ?%elem_of_nil ].
  - destruct (exec_effect e op w Hc) as [evs1 He].
    pose proof (effect_configured _ _ _ _ _ Hc He) as Hc1.
    destruct (IH _ Hc1) as (evs2 & Htr & Hcnt & Hnot & Hsw & Hc2).
    destruct He as [Htr1 _ Hsw1 Hcnt1 Hnot1 Hpend1].
    exists (evs1 ++ evs2). split_and!; try done.
    + by rewrite Htr, Htr1, app_assoc.
    + rewrite Hcnt, completed_app, Nat2Z.inj_add.
      destruct Hcnt1 as [[-> ->]|[-> ->]].
      * f_equal; lia.
      * unfold int_add. rewrite wrap_int_add_l. f_equal; lia.
    + intros it [Hin|Hin]%elem_of_app.
      * left. by apply Hnot1.
      * destruct (Hnot it Hin) as [Hp|Hq].
        -- destruct (Hpend1 it Hp) as [?| ->]; [by left|right; by left].
        -- right. by right.
    + by eapply same_wiring_trans.
Qed.

Ltac run_world :=
  cbv [bind ret get_hc modify_hc deref emit fatal when new_queue read_queue
       write_queue Queue_ShuttingDown Queue_ShutDown Queue_Clear Queue_Add
       NewTimer logger_Info by_elector close_stopCh receive_stopCh
       hc queues timers stopFired trace
       set_instance set_logger set_cache set_metrics set_tracker set_stopCh
       set_ingressQueue set_acmeQueue set_leaderelector set_updateCount
       set_controller set_cfg set_configMap set_converterOptions
       set_dynamicConfig set_reloadStrategy set_maxOldConfigFiles
       set_validateConfig
       instance hc_logger cache hc_metrics tracker stopCh ingressQueue
       acmeQueue leaderelector updateCount controller cfg configMap
       converterOptions dynamicConfig reloadStrategy maxOldConfigFiles
       validateConfig].

Ltac run_startup :=
  cbv [Start_services Start_config NewIngressController ConfigureFlags
       flags_Parse OverrideFlags configController startServices
       createFakeCrtFile createFakeCAFile initial_world NewHAProxyController
       override strategy with_strategy];
  run_world; simpl.

Ltac destruct_env e :=
  let c := fresh "c" in
  destruct e as [ars amo avc icf c pte [[path hash] crt] aca hg lerr cse acr];
  destruct c as [brt rlu acn acme eid icl afi afm acp att bs seb ms ap ds dsc scp wbs].

Lemma Start_services_started e d w :
  Start_services e d initial_world = (Done tt, w) -> started e w.
Proof.
  destruct_env e. run_startup.
  destruct ars as [rs|], amo, avc, icf; simpl.
  all: try destruct (supported_strategy rs) eqn:Hsup; simpl; try (intros [=]; fail).
  all: try destruct (String.eqb rs "multibinder") eqn:Hmb; simpl.
  all: destruct acme; simpl.
  all: destruct pte; simpl; try (intros [=]; fail).
  all: destruct aca; simpl; try (intros [=]; fail).
  all: destruct (0 <? Milliseconds scp); simpl.
  all: try (destruct lerr; simpl; try (intros [=]; fail)).
  all: intros [= <-].
  all: constructor; [constructor|..]; simpl; unfold handler_of, strategy; simpl;
    rewrite ?Hmb; eauto; try done.
  all: try (intros ? [= <-]; done).
  all: try (split; intros [? [=]]).
Qed.

Lemma Start_config_configured e d w :
  Start_config e d initial_world = (Done tt, w) ->
  configured w
  /\ present (leaderelector (hc w)) = Configuration.AcmeServer (GetConfig e)
  /\ present (acmeQueue (hc w)) = Configuration.AcmeServer (GetConfig e).
Proof.
  destruct_env e. run_startup.
  destruct ars as [rs|], amo, avc, icf; simpl.
  all: try destruct (supported_strategy rs) eqn:Hsup; simpl; try (intros [=]; fail).
  all: try destruct (String.eqb rs "multibinder") eqn:Hmb; simpl.
  all: destruct acme; simpl.
  all: destruct pte; simpl; try (intros [=]; fail).
  all: destruct aca; simpl; try (intros [=]; fail).
  all: intros [= <-].
  all: split; [|done].
  all: constructor; simpl; unfold handler_of; simpl; eauto; try done.
  all: try (intros ? [= <-]; done).
  all: try (split; intros [? [=]]).
Qed.

(** An unsupported strategy ends the startup in [OverrideFlags], before
    anything is built. *)
Lemma Start_services_unsupported e d :
  supported_strategy (strategy e) = false ->
  exists w,
    Start_services e d initial_world = (Fatal, w)
    /\ last (trace w)
       = Some (EvFatal "Unsupported reload strategy: %v" [AStr (strategy e)])
    /\ queues w = []
    /\ ingressQueue (hc w) = None /\ acmeQueue (hc w) = None
    /\ existsb is_new_queue (trace w) = false
    /\ existsb is_go (trace w) = false.
Proof.
  destruct_env e. unfold strategy. simpl. run_startup.
  destruct ars as [rs|], amo, avc, icf; simpl; try done.
  all: intros ->; simpl; eexists; split_and!; reflexivity.
Qed.

(** Apart from the warning and the options handed to the proxy instance,
    a startup with multibinder goes as one with reusesocket. *)
Lemma multibinder_like_reusesocket e d :
  (Start_services (with_strategy "multibinder" e) d initial_world).1
  = (Start_services (with_strategy "reusesocket" e) d initial_world).1
  /\ queues (Start_services (with_strategy "multibinder" e) d initial_world).2
     = queues (Start_services (with_strategy "reusesocket" e) d initial_world).2
  /\ List.filter beside_strategy
       (trace (Start_services (with_strategy "multibinder" e) d initial_world).2)
     = List.filter beside_strategy
       (trace (Start_services (with_strategy "reusesocket" e) d initial_world).2).
Proof.
  destruct_env e. run_startup.
  destruct amo, avc, icf; simpl.
  all: destruct acme; simpl.
  all: destruct pte; simpl; try done.
  all: destruct aca; simpl; try done.
  all: destruct (0 <? Milliseconds scp); simpl.
  all: try (destruct lerr; simpl; try done).
  all: done.
Qed.

Lemma completed_sync_events id t : completed (sync_events id t) = 1%nat.
Proof. reflexivity. Qed.

Lemma running_effect e d w :
  running e d w ->
  configured w /\ updateCount (hc w) = wrap_int (Z.of_nat (completed (trace w))).
Proof.
  intros (w0 & ops & Hstart & ->).
  apply Start_services_started in Hstart as [Hc Hcnt Hcomp _ _ _ _ _ _].
  destruct (exec_all_effect e ops w0 Hc) as (evs & Htr & Hcnt' & _ & _ & Hc').
  split; [done|].
  by rewrite Hcnt', Htr, completed_app, Hcnt, Hcomp.
Qed.

(** ** Leadership loss and shutdown *)

Lemma OnStoppedLeading_nil w :
  acmeQueue (hc w) = None -> OnStoppedLeading w = (Panic, w).
Proof. intros H. unfold OnStoppedLeading. run_prims. by rewrite H. Qed.

Lemma OnStoppedLeading_clears w :
  configured w -> is_Some (leaderelector (hc w)) ->
  exists aq q,
    acmeQueue (hc w) = Some aq /\ queues w !! aq = Some q
    /\ OnStoppedLeading w
       = (Done tt, mkWorld (hc w) (<[aq:=queue_Clear q]> (queues w)) (timers w)
                           (stopFired w) (trace w ++ [EvQueueClear aq])).
Proof.
  intros Hc Hle. apply (cf_elector _ Hc) in Hle as [aq Haq].
  pose proof (cf_acme _ Hc aq Haq) as Hh. unfold handler_of in Hh.
  destruct (queues w !! aq) as [q|] eqn:Hq; [|done].
  exists aq, q. split_and!; try done.
  unfold OnStoppedLeading. run_prims. by rewrite Haq, Hq.
Qed.

Lemma supported_strategy_false rs :
  supported_strategy rs = false
  <-> rs ∉ ["native"; "reusesocket"; "multibinder"].
Proof.
  unfold supported_strategy. rewrite !orb_false_iff, !String.eqb_neq.
  rewrite !not_elem_of_cons. split; [|tauto].
  intros ((? & ?) & ?). split_and!; try done. apply not_elem_of_nil.
Qed.

Lemma strategy_with e :
  arg_reload_strategy e = Some (strategy e) -> with_strategy (strategy e) e = e.
Proof. destruct e. simpl. unfold with_strategy. simpl. by intros ->. Qed.

Lemma strategy_multibinder e :
  strategy e = "multibinder" -> with_strategy "multibinder" e = e.
Proof.
  intros H. rewrite <- H. apply strategy_with. unfold strategy in *.
  destruct (arg_reload_strategy e); simpl in *; [done|discriminate].
Qed.

Lemma Stop_effect e w :
  configured w ->
  exists c,
    cfg (hc w) = Some c
    /\ Stop e w
       = (Done (controller_Stop_err e),
          mkWorld (hc w) (queues w) (timers w) (stopFired w)
                  (trace w ++ grace_events c ++ [EvControllerStop])).
Proof.
  intros Hc. destruct (cf_cfg _ Hc) as [c Hcfg].
  destruct (cf_controller _ Hc) as [ctl Hctl].
  exists c. split; [done|].
  unfold Stop, grace_events. run_prims. rewrite Hcfg. simpl.
  destruct (0 <? Configuration.WaitBeforeShutdown c); simpl;
    rewrite Hctl; simpl; rewrite <- ?app_assoc; done.
Qed.

Lemma Start_shutdown_blocked w :
  stopFired w = false -> Start_shutdown w = (Blocked, w).
Proof.
  intros H. unfold Start_shutdown. run_prims. rewrite H.
  by destruct (stopCh (hc w)).
Qed.

Lemma Start_shutdown_effect w :
  configured w -> is_Some (stopCh (hc w)) -> stopFired w = true ->
  exists w',
    Start_shutdown w = (Done tt, w')
    /\ trace w' = trace w ++ shutdown_events w
    /\ hc w' = hc w
    /\ ingress_shuttingDown w' = Some true
    /\ (is_Some (acmeQueue (hc w)) -> acme_shuttingDown w' = Some true).
Proof.
  intros Hc [s Hs] Hf.
  destruct (cf_ingress _ Hc) as (iq & Hiq & Hih).
  pose proof (cf_acme _ Hc) as Hacme.
  destruct w as [h qs tm sf tr]. simpl in *. subst.
  unfold handler_of in *. simpl in *.
  destruct (qs !! iq) as [qi|] eqn:Hqi; [|done].
  unfold Start_shutdown, stopServices, shutdown_events, ingress_shuttingDown,
    acme_shuttingDown. run_prims. simpl.
  rewrite Hs. simpl. rewrite Hiq. simpl. rewrite Hqi. simpl.
  destruct (acmeQueue h) as [aq|] eqn:Haq; simpl.
  - specialize (Hacme aq eq_refl).
    destruct (qs !! aq) as [q|] eqn:Hq; [|done]. simpl in *.
    assert (aq <> iq) by (intros ->; congruence).
    rewrite list_lookup_insert_ne by done. rewrite Hq. simpl.
    eexists. split; [done|]. simpl. rewrite Hiq, Haq. simpl.
    rewrite list_lookup_insert_ne by done.
    rewrite (lookup_insert_same _ _ _ _ Hqi). simpl.
    erewrite lookup_insert_same; [|by rewrite list_lookup_insert_ne]. simpl.
    split_and!; try done. by rewrite <- !app_assoc.
  - eexists. split; [done|]. simpl. rewrite Hiq, Haq. simpl.
    rewrite (lookup_insert_same _ _ _ _ Hqi). simpl.
    split_and!; try done; first [by rewrite <- !app_assoc | by intros [? [=]]].
Qed.

(** ** The outcome of the startup *)

(** Apart from the places that tell the strategy, a startup with
    multibinder leaves the world a startup with reusesocket leaves. *)
Lemma multibinder_same_world e d :
  erase_strategy (Start_services (with_strategy "multibinder" e) d initial_world).2
  = erase_strategy (Start_services (with_strategy "reusesocket" e) d initial_world).2.
Proof.
  destruct_env e. run_startup.
  destruct amo, avc, icf; simpl.
  all: destruct acme; simpl.
  all: destruct pte; simpl; try reflexivity.
  all: destruct aca; simpl; try reflexivity.
  all: destruct (0 <? Milliseconds scp); simpl.
  all: try (destruct lerr; simpl); vm_compute; reflexivity.
Qed.

Lemma Start_services_outcome e d :
  exists w,
    Start_services e d initial_world
    = (match fatal_event e with Some _ => Fatal | None => Done tt end, w)
    /\ List.filter is_fatal (trace w) = option_list (fatal_event e)
    /\ (is_Some (fatal_event e) -> last (trace w) = fatal_event e).
Proof.
  destruct_env e. unfold fatal_event, strategy. simpl. run_startup.
  destruct ars as [rs|], amo, avc, icf; simpl.
  all: try destruct (supported_strategy rs) eqn:Hsup; simpl.
  all: try destruct (String.eqb rs "multibinder") eqn:Hmb; simpl.
  all: destruct acme; simpl.
  all: destruct pte; simpl.
  all: try destruct aca; simpl.
  all: try destruct (0 <? Milliseconds scp); simpl.
  all: try (destruct lerr; simpl).
  all: eexists; split; [reflexivity|]; simpl.
  all: split; [reflexivity|].
  all: first [ by intros [? [=]] | reflexivity | by intros _ ].
Qed.

(** [Start] runs [startServices] where [configController] left off. *)
Lemma Start_services_split e d w :
  Start_services e d w
  = bind (Start_config e d)
         (fun _ => startServices e ;;;
                   logger_Info "HAProxy Ingress successfully initialized" []) w.
Proof.
  unfold Start_services, Start_config, bind, modify_hc.
  by destruct (NewIngressController e w) as [[] ?].
Qed.

(** [Duration.Milliseconds] is positive from one millisecond on. *)
Lemma Milliseconds_pos (d : Duration) : (0 <? Milliseconds d) = (1000000 <=? d).
Proof.
  unfold Milliseconds. apply eq_true_iff_eq.
  rewrite Z.ltb_lt, Z.leb_le. split.
  - intros H. destruct (Z.le_gt_cases 1000000 d) as [|Hlt]; [done|].
    exfalso. destruct (Z.le_gt_cases 0 d).
    + rewrite Z.quot_small in H by lia. lia.
    + pose proof (Z.quot_opp_l d 1000000 ltac:(lia)) as Ho.
      pose proof (Z.quot_pos (- d) 1000000 ltac:(lia) ltac:(lia)). lia.
  - intros H. apply Z.quot_str_pos. lia.
Qed.


Lemma Start_services_instance e d w :
  Start_services e d initial_world = (Done tt, w) ->
  inst_options <$> instance (hc w) = Some (expected_instance_options e d (hc w))
  /\ cfg (hc w) = Some (GetConfig e).
Proof.
  destruct_env e. unfold expected_instance_options. run_startup.
  destruct ars as [rs|], amo, avc, icf; simpl.
  all: try destruct (supported_strategy rs) eqn:Hsup; simpl; try (intros [=]; fail).
  all: try destruct (String.eqb rs "multibinder") eqn:Hmb; simpl.
  all: destruct acme; simpl.
  all: destruct pte; simpl; try (intros [=]; fail).
  all: destruct aca; simpl; try (intros [=]; fail).
  all: destruct (0 <? Milliseconds scp); simpl.
  all: try (destruct lerr; simpl; try (intros [=]; fail)).
  all: intros [= <-]; split; reflexivity.
Qed.

Lemma running_wiring e d w :
  running e d w ->
  exists w0,
    Start_services e d initial_world = (Done tt, w0)
    /\ same_wiring w0 w /\ configured w.
Proof.
  intros (w0 & ops & Hstart & ->). exists w0. split; [done|].
  pose proof (Start_services_started _ _ _ Hstart) as [Hc _ _ _ _ _ _ _ _].
  by destruct (exec_all_effect e ops w0 Hc) as (_ & _ & _ & _ & ? & ?).
Qed.

(** ** Operations on a controller whose components exist *)

Lemma queue_Add_shuttingDown it q :
  q_shuttingDown (queue_Add it q) = q_shuttingDown q.
Proof. unfold queue_Add. by repeat case_match. Qed.


(** No operation fails, and none takes the Work Queue out of its drain or
    runs a reconciliation during it. *)
Lemma exec_cases e op w :
  configured w ->
  (exec e op w).1 = exec_result op w
  /\ (ingress_shuttingDown w = Some true ->
      ingress_shuttingDown (exec e op w).2 = Some true
      /\ updateCount (hc (exec e op w).2) = updateCount (hc w)).
Proof.
  intros [[lg Hlg] [mt Hmt] [inst Hinst] [c Hc] [ctl Hctl] [sc Hsc]
            (iq & Hiq & Hih) Hacme Hel Hcnt].
  destruct w as [[i l ca m t s iqo aqo leo u ct cf cm co dc rs mo vc] qs tm sf tr].
  unfold handler_of, ingress_shuttingDown in *. simpl in *. subst.
  destruct (qs !! iq) as [qi|] eqn:Hqi; [|done].
  assert (Hacme' : forall aq, aqo = Some aq ->
            exists q, qs !! aq = Some q /\ q_handler q = HAcmeNotify /\ aq <> iq).
  { intros aq Haq. specialize (Hacme aq Haq).
    destruct (qs !! aq) as [q|] eqn:Hq; [|done]. simpl in *.
    exists q. split; [done|]. split; [congruence|].
    intros ->. congruence. }
  clear Hacme. simplify_eq. simpl.
  destruct op.
  - (* OpEnqueue *)
    run_methods. simpl. destruct acme; simpl.
    + destruct aqo as [aq|]; simpl; [|by rewrite Hqi].
      destruct (Hacme' aq eq_refl) as (q & Hq & Hh & Hne). rewrite Hq. simpl.
      by rewrite list_lookup_insert_ne, Hqi.
    + rewrite Hqi. simpl. rewrite (lookup_insert_same _ _ _ _ Hqi). simpl.
      by rewrite queue_Add_shuttingDown.
  - (* OpWork *)
    run_methods. simpl. destruct acme; simpl.
    + destruct aqo as [aq|]; simpl; [|by rewrite Hqi].
      destruct (Hacme' aq eq_refl) as (q & Hq & Hh & Hne). rewrite Hq.
      destruct (q_pending q) as [|it0 rest] eqn:Hp; simpl; [by rewrite Hqi|].
      rewrite Hh. simpl. destruct ok; simpl.
      { by rewrite list_lookup_insert_ne, Hqi. }
      rewrite (lookup_insert_same _ _ _ _ Hq). simpl.
      by rewrite !list_lookup_insert_ne, Hqi.
    + rewrite Hqi. destruct (q_pending qi) as [|it0 rest] eqn:Hp; simpl;
        [by rewrite Hqi|].
      simpl in Hih. simplify_eq. rewrite Hih. simpl.
      rewrite (lookup_insert_same _ _ _ _ Hqi). simpl.
      destruct (q_shuttingDown qi); simpl.
      * by rewrite (lookup_insert_same _ _ _ _ Hqi).
      * split; [done|]. intros [=].
  - (* OpStartedLeading *)
    run_methods. simpl. destruct leo; simpl; by rewrite Hqi.
  - (* OpStoppedLeading *)
    run_methods. simpl. destruct leo as [le|]; simpl; [|by rewrite Hqi].
    destruct Hel as [Hel _]. destruct (Hel (mk_is_Some _ _ eq_refl)) as [aq ->].
    simpl. destruct (Hacme' aq eq_refl) as (q & Hq & Hh & Hne). rewrite Hq.
    simpl. by rewrite list_lookup_insert_ne, Hqi.
  - (* OpNewLeader *)
    run_methods. simpl. destruct leo; simpl; by rewrite Hqi.
  - (* OpAcmeCheck *)
    run_methods. simpl. by rewrite Hqi.
  - (* OpCheck *)
    run_methods. simpl. by rewrite Hqi.
  - (* OpSetConfig *)
    run_methods. simpl. by rewrite Hqi.
  - (* OpStop *)
    run_methods. simpl.
    destruct (0 <? Configuration.WaitBeforeShutdown c); simpl; by rewrite Hqi.
  - (* OpCloseStopCh *)
    run_methods. simpl. by rewrite Hqi.
  - (* OpStartShutdown *)
    run_methods. simpl. destruct sf; simpl; [|by rewrite Hqi].
    rewrite Hqi. simpl. destruct aqo as [aq|]; simpl.
    + destruct (Hacme' aq eq_refl) as (q & Hq & Hh & Hne).
      rewrite list_lookup_insert_ne, Hq by done. simpl.
      rewrite list_lookup_insert_ne by done.
      by rewrite (lookup_insert_same _ _ _ _ Hqi).
    + by rewrite (lookup_insert_same _ _ _ _ Hqi).
Qed.

(** ** The worker interleaved with the rest *)

(** The handler is its test followed by the reconciliation. *)
Lemma syncIngress_split item w :
  syncIngress item w
  = (shuttingDown <- syncIngress_test ;;
     if shuttingDown then ret tt else syncIngress_rest) w.
Proof.
  unfold syncIngress, syncIngress_test, syncIngress_rest. run_prims.
  destruct (ingressQueue (hc w)) as [iq|]; [|reflexivity].
  destruct (queues w !! iq) as [q|]; [|reflexivity].
  destruct (q_shuttingDown q); reflexivity.
Qed.



(** A worker iteration that nothing interrupts is the handler's test and,
    past it, the reconciliation. *)
Lemma exec_work_uninterrupted e ok w :
  configured w ->
  exec e (OpWork false ok) w
  = (b <- worker_begin ;; if b then syncIngress_rest else ret tt) w.
Proof.
  intros Hc. destruct (cf_ingress _ Hc) as (iq & Hiq & Hih).
  destruct w as [h qs tm sf tr]. unfold handler_of in *. simpl in *.
  destruct (qs !! iq) as [qi|] eqn:Hqi; [|done]. simpl in Hih.
  injection Hih as Hih.
  unfold exec, Queue_work, queue_of, worker_begin, syncIngress_test, queue_Get.
  run_prims. simpl. rewrite Hiq. simpl. rewrite Hqi.
  destruct (q_pending qi) as [|it rest]; simpl; [reflexivity|].
  rewrite Hih, Hiq. simpl.
  rewrite syncIngress_split. unfold syncIngress_test. run_prims. simpl.
  rewrite Hiq. simpl. rewrite (lookup_insert_same _ _ _ _ Hqi). simpl.
  destruct (q_shuttingDown qi); reflexivity.
Qed.








(** ** The stored ConfigMap *)

Ltac open_world w :=
  destruct w as [[i l ca m t s iqo aqo leo u ct cf cm0 co dc rs mo vc] qs tm sf tr];
  unfold with_configMap; simpl.

Lemma syncIngress_ignores_configMap item : ignores_configMap (syncIngress item).
Proof.
  intros cm w. open_world w. unfold syncIngress. run_prims. simpl.
  destruct iqo as [iq|]; simpl; [|reflexivity].
  destruct (qs !! iq) as [q|]; simpl; [|reflexivity].
  destruct (q_shuttingDown q); simpl; [reflexivity|].
  destruct l; simpl; [|reflexivity].
  destruct m; simpl; [|reflexivity].
  destruct i; reflexivity.
Qed.

Lemma Queue_Add_ignores_configMap r it : ignores_configMap (Queue_Add r it).
Proof.
  intros cm w. open_world w. run_prims. simpl. destruct (qs !! r); reflexivity.
Qed.

Lemma Queue_work_ignores_configMap r ok : ignores_configMap (Queue_work r ok).
Proof.
  intros cm w.
  cbv [Queue_work bind read_queue write_queue with_configMap
       queues hc timers stopFired trace].
  destruct w as [h qs tm sf tr].
  destruct (qs !! r) as [q|]; [|reflexivity].
  destruct (queue_Get q) as [[it q']|]; [|reflexivity].
  destruct (q_handler q).
  - apply (syncIngress_ignores_configMap it cm (mkWorld h (<[r:=q']> qs) tm sf tr)).
  - run_prims. simpl. destruct ok; simpl; [reflexivity|].
    destruct (<[r:=q']> qs !! r); reflexivity.
Qed.

Lemma Start_shutdown_ignores_configMap : ignores_configMap Start_shutdown.
Proof.
  intros cm w. open_world w. unfold Start_shutdown, stopServices. run_prims. simpl.
  destruct s; simpl; [|reflexivity]. destruct sf; simpl; [|reflexivity].
  destruct iqo as [iq|]; simpl; [|reflexivity].
  destruct (qs !! iq) as [q|]; simpl; [|reflexivity].
  destruct aqo as [aq|]; simpl; [|reflexivity].
  destruct (<[iq:=queue_ShutDown q]> qs !! aq); reflexivity.
Qed.

Lemma exec_ignores_configMap e op :
  is_SetConfig op = false -> ignores_configMap (exec e op).
Proof.
  intros Hop cm w. destruct op; try discriminate; clear Hop.
  - unfold exec, bind, get_hc, queue_of. cbn [hc with_configMap].
    replace (acmeQueue (set_configMap cm (hc w))) with (acmeQueue (hc w))
      by (by destruct (hc w)).
    replace (ingressQueue (set_configMap cm (hc w))) with (ingressQueue (hc w))
      by (by destruct (hc w)).
    destruct (if acme then acmeQueue (hc w) else ingressQueue (hc w)); [|reflexivity].
    apply Queue_Add_ignores_configMap.
  - unfold exec, bind, get_hc, queue_of. cbn [hc with_configMap].
    replace (acmeQueue (set_configMap cm (hc w))) with (acmeQueue (hc w))
      by (by destruct (hc w)).
    replace (ingressQueue (set_configMap cm (hc w))) with (ingressQueue (hc w))
      by (by destruct (hc w)).
    destruct (if acme then acmeQueue (hc w) else ingressQueue (hc w)); [|reflexivity].
    apply Queue_work_ignores_configMap.
  - open_world w. unfold exec, OnStartedLeading. run_prims. simpl.
    destruct leo; simpl; [|reflexivity]. destruct i; reflexivity.
  - open_world w. unfold exec, OnStoppedLeading. run_prims. simpl.
    destruct leo; simpl; [|reflexivity]. destruct aqo as [aq|]; simpl; [|reflexivity].
    destruct (qs !! aq); reflexivity.
  - open_world w. unfold exec, OnNewLeader. run_prims. simpl.
    destruct leo; simpl; [|reflexivity]. destruct l; reflexivity.
  - open_world w. unfold exec, AcmeCheck. run_prims. simpl. destruct i; reflexivity.
  - by open_world w.
  - open_world w. unfold exec, Stop. run_prims. simpl.
    destruct cf as [c|]; simpl; [|reflexivity].
    destruct (0 <? Configuration.WaitBeforeShutdown c); simpl; destruct ct; reflexivity.
  - by open_world w.
  - apply Start_shutdown_ignores_configMap.
Qed.

(** * Verified properties *)

(** C1.  In a controller that was started and then driven by any sequence
    of operations, the Update Counter equals the number of reconciliations
    completed so far, and one more completed invocation of the handler
    ([ShuttingDown()] false) raises both by exactly one.  The counter is a
    Go [int]: this holds while that number is below the largest [int]; in
    general the counter is that number wrapped to 64 bits. *)
Theorem update_counter_counts_reconciliations e d w item :
  running e d w ->
  updateCount (hc w) = wrap_int (Z.of_nat (completed (trace w)))
  /\ (Z.of_nat (completed (trace w)) < max_int ->
      updateCount (hc w) = Z.of_nat (completed (trace w))
      /\ (ingress_shuttingDown w = Some false ->
          exists w', syncIngress item w = (Done tt, w')
                     /\ updateCount (hc w') = updateCount (hc w) + 1
                     /\ completed (trace w') = S (completed (trace w)))).
Proof.
  intros [Hc Hcnt]%running_effect. split; [done|]. intros Hlt.
  assert (Hn : updateCount (hc w) = Z.of_nat (completed (trace w))).
  { rewrite Hcnt. apply wrap_int_id. unfold min_int. lia. }
  split; [done|]. intros Hsd.
  eexists. split; [by apply syncIngress_running|]. simpl. split.
  - destruct w as [[] ? ? ? ?]. simpl in *. apply int_add_1.
    unfold min_int. lia.
  - rewrite completed_app, completed_sync_events. lia.
Qed.

Lemma update_counter_witness :
  updateCount (hc (exec_all (example_env None true 5) two_reconciliations
                            started_world)) = 2
  /\ exists w', syncIngress "resync"
                  (exec_all (example_env None true 5) two_reconciliations
                            started_world) = (Done tt, w')
                /\ updateCount (hc w') = 3.
Proof.
  destruct (update_counter_counts_reconciliations
              (example_env None true 5) example_maps
              (exec_all (example_env None true 5) two_reconciliations
                        started_world) "resync") as [_ H].
  - exists started_world, two_reconciliations. split; vm_compute; reflexivity.
  - destruct H as [H1 H2]; [vm_compute; reflexivity|].
    split; [exact H1|].
    destruct (H2 eq_refl) as (w' & Hs & Hc & _).
    exists w'. split; [exact Hs|]. rewrite Hc, H1. vm_compute. reflexivity.
Defined.

(** C2.  An invocation of the handler with [ShuttingDown()] false makes
    these calls, in this order and no others: it logs the start with the
    incremented Update Counter, creates a timer, asks the instance for its
    configuration model and runs the converter's [Sync] on it, calls
    [Update(timer)] on the instance, and logs the end with the same counter
    and the timer's total. *)
Theorem syncIngress_sequence e d w item :
  running e d w ->
  ingress_shuttingDown w = Some false ->
  exists w',
    syncIngress item w = (Done tt, w')
    /\ updateCount (hc w') = int_add (updateCount (hc w)) 1
    /\ trace w' =
       trace w ++
         [ EvInfo "starting haproxy update id=%d" [AInt (updateCount (hc w'))];
           EvNewTimer (timers w);
           EvInstanceConfig;
           EvConverterSync (timers w);
           EvInstanceUpdate (timers w);
           EvInfo "finish haproxy update id=%d: %s"
                  [AInt (updateCount (hc w')); ATimerTotal (timers w)] ].
Proof.
  intros [Hc _]%running_effect Hsd.
  eexists. split; [by apply syncIngress_running|].
  destruct w as [[] ? ? ? ?]. split; reflexivity.
Qed.

Lemma syncIngress_sequence_witness :
  exists w',
    syncIngress "resync" started_world = (Done tt, w')
    /\ updateCount (hc w') = 1
    /\ trace w' =
       trace started_world ++
         [ EvInfo "starting haproxy update id=%d" [AInt 1];
           EvNewTimer 0%nat;
           EvInstanceConfig;
           EvConverterSync 0%nat;
           EvInstanceUpdate 0%nat;
           EvInfo "finish haproxy update id=%d: %s" [AInt 1; ATimerTotal 0%nat] ].
Proof.
  destruct (syncIngress_sequence (example_env None true 5) example_maps
              started_world "resync") as (w' & Hs & Hc & Ht).
  - exists started_world, []. split; vm_compute; reflexivity.
  - vm_compute. reflexivity.
  - exists w'. split; [exact Hs|]. split; [exact Hc|].
    rewrite Ht, Hc. reflexivity.
Defined.

(** C3.  An invocation of the handler while [ShuttingDown()] answers true
    returns at once: the world is left as it was, so the converter and
    [Update] are not called and the Update Counter keeps its value. *)
Theorem syncIngress_during_shutdown w item :
  ingress_shuttingDown w = Some true ->
  exists w',
    syncIngress item w = (Done tt, w')
    /\ w' = w
    /\ updateCount (hc w') = updateCount (hc w)
    /\ trace w' = trace w.
Proof.
  intros Hsd. exists w. by rewrite syncIngress_shuttingDown.
Qed.

Lemma syncIngress_during_shutdown_witness :
  exists w',
    syncIngress "resync"
      (exec_all (example_env None true 5) [OpCloseStopCh; OpStartShutdown]
                started_world) = (Done tt, w')
    /\ updateCount (hc w') = 0.
Proof.
  destruct (syncIngress_during_shutdown
              (exec_all (example_env None true 5) [OpCloseStopCh; OpStartShutdown]
                        started_world) "resync") as (w' & Hs & _ & Hc & _).
  - vm_compute. reflexivity.
  - exists w'. split; [exact Hs|]. rewrite Hc. vm_compute. reflexivity.
Defined.

(** C4, as stated, fails at [--reload-strategy=multibinder]: the startup
    completes, and the proxy instance is created with the strategy
    "multibinder", not "reusesocket". *)
Lemma multibinder_passed_unchanged :
  exists w,
    Start_services (example_env (Some "multibinder") false 0) example_maps
                   initial_world = (Done tt, w)
    /\ InstanceOptions.ReloadStrategy ∘ inst_options <$> instance (hc w)
       = Some "multibinder"
    /\ InstanceOptions.ReloadStrategy ∘ inst_options <$> instance (hc w)
       <> Some "reusesocket".
Proof.
  eexists. split; [vm_compute; reflexivity|]. split; [reflexivity|discriminate].
Qed.

(** C4, amended.  A reload strategy outside native, reusesocket and
    multibinder ends the startup in [OverrideFlags] with a fatal error,
    before any queue is created or started.  With multibinder the startup
    has the outcome it has with reusesocket, builds the same queues and
    makes the same calls, apart from the deprecation warning and from the
    options handed to the proxy instance: the instance is created with the
    strategy the flag holds, multibinder included, and the warning is
    logged exactly for multibinder.  The strategy is the only option that
    differs: with the flag, the [ReloadStrategy] option and the warning
    taken out, the two startups leave the same world, that is the same
    fields of the controller, the same options of the instance, the same
    queues and the same calls with the same arguments. *)
Theorem reload_strategy_validation e d :
  (strategy e ∉ ["native"; "reusesocket"; "multibinder"] ->
   exists w,
     Start_services e d initial_world = (Fatal, w)
     /\ last (trace w)
        = Some (EvFatal "Unsupported reload strategy: %v" [AStr (strategy e)])
     /\ queues w = []
     /\ existsb is_new_queue (trace w) = false
     /\ existsb is_go (trace w) = false)
  /\ (strategy e = "multibinder" ->
      (Start_services e d initial_world).1
      = (Start_services (with_strategy "reusesocket" e) d initial_world).1
      /\ queues (Start_services e d initial_world).2
         = queues (Start_services (with_strategy "reusesocket" e) d initial_world).2
      /\ List.filter beside_strategy
           (trace (Start_services e d initial_world).2)
         = List.filter beside_strategy
           (trace (Start_services (with_strategy "reusesocket" e) d initial_world).2)
      /\ erase_strategy (Start_services e d initial_world).2
         = erase_strategy
             (Start_services (with_strategy "reusesocket" e) d initial_world).2)
  /\ (forall w,
        Start_services e d initial_world = (Done tt, w) ->
        InstanceOptions.ReloadStrategy ∘ inst_options <$> instance (hc w)
        = Some (strategy e)
        /\ filter is_deprecation_warning (trace w)
           = if String.eqb (strategy e) "multibinder"
             then [deprecation_warning] else []).
Proof.
  split_and!.
  - intros Hs%supported_strategy_false.
    destruct (Start_services_unsupported e d Hs) as (w & ? & ? & ? & _ & _ & ? & ?).
    by exists w.
  - intros Hs%strategy_multibinder. rewrite <- Hs at 1 3 5 7.
    destruct (multibinder_like_reusesocket e d) as (? & ? & ?).
    split_and!; try done. apply multibinder_same_world.
  - intros w [_ _ _ _ _ _ Hst Hw _]%Start_services_started. done.
Qed.

Lemma reload_strategy_validation_witness :
  (exists w,
     Start_services (example_env (Some "haproxy") false 0) example_maps
                    initial_world = (Fatal, w)
     /\ queues w = [])
  /\ (Start_services (example_env (Some "multibinder") false 0) example_maps
                     initial_world).1 = Done tt.
Proof.
  destruct (reload_strategy_validation
              (example_env (Some "haproxy") false 0) example_maps)
    as (Hbad & _ & _).
  destruct (reload_strategy_validation
              (example_env (Some "multibinder") false 0) example_maps)
    as (_ & Hmb & _).
  split.
  - destruct Hbad as (w & Hw & _ & Hq & _).
    + vm_compute. intros H. repeat (apply elem_of_cons in H as [H|H]; [discriminate|]).
      by apply elem_of_nil in H.
    + exists w. split; [exact Hw|exact Hq].
  - destruct Hmb as (H1 & _); [reflexivity|]. rewrite H1. vm_compute. reflexivity.
Defined.

(** C5.  When the elector delivers [OnStoppedLeading] to a running
    controller, the Failure-Backoff Queue is cleared: no key is left
    pending, and whatever happens afterwards, the issuance handler is only
    invoked for keys added after the callback. *)
Theorem OnStoppedLeading_clears_acme_queue e d w :
  running e d w ->
  is_Some (leaderelector (hc w)) ->
  exists aq w',
    OnStoppedLeading w = (Done tt, w')
    /\ acmeQueue (hc w') = Some aq
    /\ pending_of aq w' = []
    /\ trace w' = trace w ++ [EvQueueClear aq]
    /\ forall ops, exists evs,
         trace (exec_all e ops w') = trace w' ++ evs
         /\ forall it, EvAcmeNotify it ∈ evs -> OpEnqueue true it ∈ ops.
Proof.
  intros [Hc _]%running_effect Hle.
  destruct (OnStoppedLeading_clears w Hc Hle) as (aq & q & Haq & Hq & Hrun).
  exists aq. eexists. split; [exact Hrun|]. simpl.
  assert (Hp : pending_of aq
                 (mkWorld (hc w) (<[aq:=queue_Clear q]> (queues w)) (timers w)
                          (stopFired w) (trace w ++ [EvQueueClear aq])) = []).
  { unfold pending_of. simpl. by erewrite lookup_insert_same. }
  split_and!; try done.
  intros ops.
  assert (Hc' : configured
                  (mkWorld (hc w) (<[aq:=queue_Clear q]> (queues w)) (timers w)
                           (stopFired w) (trace w ++ [EvQueueClear aq]))).
  { pose proof (exec_configured e OpStoppedLeading w Hc) as H.
    unfold exec, by_elector, bind, get_hc in H. simpl in H.
    destruct Hle as [le Hle]. rewrite Hle in H. by rewrite Hrun in H. }
  destruct (exec_all_effect e ops _ Hc') as (evs & Htr & _ & Hnot & _ & _).
  exists evs. split; [exact Htr|].
  intros it Hin. destruct (Hnot it Hin) as [Hpend|Hop]; [|done].
  unfold acme_pending in Hpend. simpl in Hpend. rewrite Haq, Hp in Hpend.
  by apply elem_of_nil in Hpend.
Qed.

Lemma OnStoppedLeading_witness :
  acme_pending (exec_all (example_env None true 5) two_pending started_world)
  = ["tls/www.example.com"; "tls/api.example.com"]
  /\ exists aq w',
       OnStoppedLeading
         (exec_all (example_env None true 5) two_pending started_world)
       = (Done tt, w')
       /\ acmeQueue (hc w') = Some aq
       /\ pending_of aq w' = []
       /\ existsb is_acme_notify
            (trace (exec_all (example_env None true 5)
                      [OpWork true true; OpWork true false] w')) = false.
Proof.
  split; [vm_compute; reflexivity|].
  destruct (OnStoppedLeading_clears_acme_queue
              (example_env None true 5) example_maps
              (exec_all (example_env None true 5) two_pending started_world))
    as (aq & w' & Hrun & Haq & Hp & _ & _).
  - exists started_world, two_pending. split; vm_compute; reflexivity.
  - vm_compute. eexists. reflexivity.
  - exists aq, w'. split; [exact Hrun|]. split; [exact Haq|].
    split; [exact Hp|].
    vm_compute in Hrun. injection Hrun as <-. vm_compute. reflexivity.
Defined.

(** C6, as stated, fails on this shutdown of a controller with a grace
    period of five seconds: [Stop] sleeps and signals the external
    controller while the Work Queue still accepts work; the queues are shut
    down only afterwards, when the stop channel has been closed and [Start]
    goes on. *)
Lemma shutdown_sleeps_before_queues_stop :
  drop (length (trace started_world))
       (trace (exec_all (example_env None true 5)
                 [OpStop; OpCloseStopCh; OpStartShutdown] started_world))
  = [ EvGlogInfo "Waiting %v before stopping components" [ADuration 5000000000];
      EvSleep 5000000000;
      EvControllerStop;
      EvStopChReceived;
      EvQueueShutDown 0%nat;
      EvQueueShutDown 1%nat ]
  /\ ingress_shuttingDown
       (exec_all (example_env None true 5) [OpStop] started_world)
     = Some false.
Proof. split; vm_compute; reflexivity. Qed.

(** C6, amended.  In a running controller [Stop] sleeps the grace period
    first, when [WaitBeforeShutdown] is positive, and then signals the
    external watch controller to stop; it shuts no queue down.  [Start]
    shuts the queues down once the stop channel has fired, and not before:
    the Work Queue unconditionally, then the Failure-Backoff Queue when it
    exists.  The grace period is [WaitBeforeShutdown] seconds as long as
    that many nanoseconds fit a [time.Duration]. *)
Theorem shutdown_order e d w :
  running e d w ->
  (exists c w',
     cfg (hc w) = Some c
     /\ Stop e w = (Done (controller_Stop_err e), w')
     /\ trace w' = trace w ++ grace_events c ++ [EvControllerStop]
     /\ queues w' = queues w
     /\ (0 < Configuration.WaitBeforeShutdown c <= 9223372036 ->
         grace_events c
         = [ EvGlogInfo "Waiting %v before stopping components"
               [ADuration (Configuration.WaitBeforeShutdown c * 1000000000)];
             EvSleep (Configuration.WaitBeforeShutdown c * 1000000000) ])
     /\ (Configuration.WaitBeforeShutdown c <= 0 -> grace_events c = []))
  /\ (stopFired w = false -> Start_shutdown w = (Blocked, w))
  /\ (stopFired w = true ->
      exists w',
        Start_shutdown w = (Done tt, w')
        /\ trace w' = trace w ++ shutdown_events w
        /\ ingress_shuttingDown w' = Some true
        /\ (is_Some (acmeQueue (hc w)) -> acme_shuttingDown w' = Some true)).
Proof.
  intros [Hc _]%running_effect. split_and!.
  - destruct (Stop_effect e w Hc) as (c & Hcfg & Hstop).
    exists c. eexists. split; [done|]. split; [exact Hstop|]. simpl.
    split_and!; try done.
    + intros Hw. unfold grace_events.
      destruct (Z.ltb_spec 0 (Configuration.WaitBeforeShutdown c)); [|lia].
      unfold int_mul, Second. rewrite wrap_int_id; [done|].
      unfold min_int, max_int. lia.
    + intros Hw. unfold grace_events.
      destruct (Z.ltb_spec 0 (Configuration.WaitBeforeShutdown c)); [lia|done].
  - apply Start_shutdown_blocked.
  - intros Hf.
    destruct (Start_shutdown_effect w Hc (cf_stopCh _ Hc) Hf)
      as (w' & ? & ? & _ & ? & ?).
    by exists w'.
Qed.

Lemma shutdown_order_witness :
  (exists w',
     Stop (example_env None true 5) started_world = (Done None, w')
     /\ trace w' = trace started_world
          ++ [ EvGlogInfo "Waiting %v before stopping components"
                 [ADuration 5000000000];
               EvSleep 5000000000; EvControllerStop ]
     /\ queues w' = queues started_world)
  /\ Start_shutdown started_world = (Blocked, started_world).
Proof.
  destruct (shutdown_order (example_env None true 5) example_maps started_world)
    as ((c & w' & Hcfg & Hstop & Htr & Hq & Hg & _) & Hb & _).
  - exists started_world, []. split; vm_compute; reflexivity.
  - split; [|apply Hb; vm_compute; reflexivity].
    exists w'. split; [exact Hstop|]. split; [|exact Hq].
    rewrite Htr. vm_compute in Hcfg. injection Hcfg as <-.
    vm_compute. reflexivity.
Defined.

(** C7.  After a startup that completes, the leader elector, the ACME
    signer and the Failure-Backoff Queue exist, and the elector, the
    control socket listener, the queue's worker and the periodic check run,
    if and only if [AcmeServer] is enabled.  When it is disabled none of
    them exists or runs, however the startup ends. *)
Theorem acme_components_follow_AcmeServer e d r w :
  Start_services e d initial_world = (r, w) ->
  (Configuration.AcmeServer (GetConfig e) = false ->
   acme_services w = all_acme false)
  /\ (r = Done tt ->
      acme_services w = all_acme (Configuration.AcmeServer (GetConfig e))).
Proof.
  destruct_env e. run_startup.
  destruct ars as [rs|], amo, avc, icf; simpl.
  all: try destruct (supported_strategy rs) eqn:Hsup; simpl.
  all: try destruct (String.eqb rs "multibinder") eqn:Hmb; simpl.
  all: destruct acme; simpl.
  all: destruct pte; simpl.
  all: destruct aca; simpl.
  all: destruct (0 <? Milliseconds scp); simpl.
  all: try (destruct lerr; simpl).
  all: intros [= <- <-]; split; intros; done.
Qed.

Lemma acme_components_witness :
  acme_services started_world = all_acme true
  /\ acme_services
       (Start_services (example_env None false 0) example_maps initial_world).2
     = all_acme false.
Proof.
  split.
  - refine (proj2 (acme_components_follow_AcmeServer
                     (example_env None true 5) example_maps (Done tt)
                     started_world _) eq_refl).
    vm_compute. reflexivity.
  - refine (proj1 (acme_components_follow_AcmeServer
                     (example_env None false 0) example_maps (Done tt)
                     _ _) eq_refl).
    vm_compute. reflexivity.
Defined.

(** C8, as stated, fails for these two controllers: their ingress classes
    differ, their election identifiers are the same. *)
Lemma elector_id_collision :
  Configuration.IngressClass (GetConfig (env_with_ids "acme" "internal-haproxy"))
  <> Configuration.IngressClass (GetConfig (env_with_ids "acme-internal" "haproxy"))
  /\ le_id <$> leaderelector
       (hc (Start_services (env_with_ids "acme" "internal-haproxy")
                           example_maps initial_world).2)
     = Some "acme-internal-haproxy"
  /\ le_id <$> leaderelector
       (hc (Start_services (env_with_ids "acme-internal" "haproxy")
                           example_maps initial_world).2)
     = Some "acme-internal-haproxy".
Proof. split; [discriminate|]. split; vm_compute; reflexivity. Qed.

(** C8, amended.  The election identifier of a started controller is the
    configured base election ID, a hyphen and the ingress class; two
    controllers with the same base election ID and distinct ingress
    classes have distinct identifiers. *)
Theorem elector_id_from_base_and_class e1 e2 d w1 w2 :
  Start_services e1 d initial_world = (Done tt, w1) ->
  Start_services e2 d initial_world = (Done tt, w2) ->
  Configuration.AcmeServer (GetConfig e1) = true ->
  Configuration.AcmeServer (GetConfig e2) = true ->
  le_id <$> leaderelector (hc w1)
  = Some (Configuration.AcmeElectionID (GetConfig e1) +:+ "-"
          +:+ Configuration.IngressClass (GetConfig e1))
  /\ (Configuration.AcmeElectionID (GetConfig e1)
      = Configuration.AcmeElectionID (GetConfig e2) ->
      Configuration.IngressClass (GetConfig e1)
      <> Configuration.IngressClass (GetConfig e2) ->
      le_id <$> leaderelector (hc w1) <> le_id <$> leaderelector (hc w2)).
Proof.
  intros [_ _ _ _ _ _ _ _ H1]%Start_services_started
         [_ _ _ _ _ _ _ _ H2]%Start_services_started Ha1 Ha2.
  rewrite Ha1 in H1. rewrite Ha2 in H2. split; [exact H1|].
  intros Hbase Hclass. rewrite H1, H2. unfold electorID. rewrite Hbase.
  intros [= Heq]. apply Hclass.
  by apply (inj (String.app _)), (inj (String.app _)) in Heq.
Qed.

Lemma elector_id_witness :
  le_id <$> leaderelector
    (hc (Start_services (env_with_ids "acme" "haproxy") example_maps
                        initial_world).2)
  = Some "acme-haproxy"
  /\ le_id <$> leaderelector
       (hc (Start_services (env_with_ids "acme" "haproxy") example_maps
                           initial_world).2)
     <> le_id <$> leaderelector
          (hc (Start_services (env_with_ids "acme" "haproxy-internal")
                              example_maps initial_world).2).
Proof.
  destruct (elector_id_from_base_and_class
              (env_with_ids "acme" "haproxy") (env_with_ids "acme" "haproxy-internal")
              example_maps
              (Start_services (env_with_ids "acme" "haproxy") example_maps
                              initial_world).2
              (Start_services (env_with_ids "acme" "haproxy-internal")
                              example_maps initial_world).2)
    as [H1 H2].
  - vm_compute. reflexivity.
  - vm_compute. reflexivity.
  - reflexivity.
  - reflexivity.
  - split; [exact H1|]. apply H2; [reflexivity|discriminate].
Defined.

(** C9.  Once [configController] has completed, the leader elector is
    non-nil exactly when the Failure-Backoff Queue is, both exactly when
    [AcmeServer] is enabled, and no later operation changes that; so
    whenever there is an elector to deliver [OnStoppedLeading], the callback
    finds a queue to clear and completes.  Without the elector nobody
    delivers the callback: called all the same with [AcmeServer] disabled,
    it would dereference the nil queue. *)
Theorem elector_exists_iff_acme_queue e d w0 ops :
  Start_config e d initial_world = (Done tt, w0) ->
  (is_Some (leaderelector (hc w0)) <-> is_Some (acmeQueue (hc w0)))
  /\ present (leaderelector (hc w0)) = Configuration.AcmeServer (GetConfig e)
  /\ present (acmeQueue (hc w0)) = Configuration.AcmeServer (GetConfig e)
  /\ (is_Some (leaderelector (hc (exec_all e ops w0)))
      <-> is_Some (acmeQueue (hc (exec_all e ops w0))))
  /\ (is_Some (leaderelector (hc (exec_all e ops w0))) ->
      exists w', OnStoppedLeading (exec_all e ops w0) = (Done tt, w'))
  /\ (Configuration.AcmeServer (GetConfig e) = false ->
      OnStoppedLeading w0 = (Panic, w0)).
Proof.
  intros (Hc & Hle & Haq)%Start_config_configured.
  destruct (exec_all_effect e ops w0 Hc) as (_ & _ & _ & _ & _ & Hc').
  split_and!; try done.
  - apply Hc.
  - apply Hc'.
  - intros H. destruct (OnStoppedLeading_clears _ Hc' H) as (? & ? & _ & _ & Hrun).
    eexists. exact Hrun.
  - intros Hoff. apply OnStoppedLeading_nil. rewrite Hoff in Haq.
    by destruct (acmeQueue (hc w0)).
Qed.

Lemma elector_exists_witness :
  exists w',
    OnStoppedLeading
      (exec_all (example_env None true 5) two_pending
         (Start_config (example_env None true 5) example_maps initial_world).2)
    = (Done tt, w').
Proof.
  destruct (elector_exists_iff_acme_queue
              (example_env None true 5) example_maps
              (Start_config (example_env None true 5) example_maps initial_world).2
              two_pending) as (_ & _ & _ & _ & H & _).
  - vm_compute. reflexivity.
  - apply H. vm_compute. eexists. reflexivity.
Defined.

(** C10.  [Check] answers nil, healthy, for every request and in every
    state of the controller, and leaves the state as it is. *)
Theorem Check_always_healthy {Request : Type} (req : Request) (w : World) :
  Check req w = (Done None, w).
Proof. unfold Check, ret. reflexivity. Qed.


(** * Further properties of the orchestrator *)

(** X1.  Whatever the deployment, the part of [Start] before the receive
    on the stop channel either completes or exits the process, and it
    exits exactly when one of four checks fails.  The checks are made in
    this order: the reload strategy is not in the allow-list
    ([OverrideFlags]), the templates do not parse ([configController]),
    the fake CA cannot be generated ([createFakeCAFile]), the ACME socket
    cannot be bound while [AcmeServer] is set ([startServices]).  The
    message of the first failed check is the only fatal message logged
    and the last call made. *)
Theorem startup_fatal_causes e d :
  exists w,
    Start_services e d initial_world
    = (match fatal_event e with Some _ => Fatal | None => Done tt end, w)
    /\ List.filter is_fatal (trace w) = option_list (fatal_event e)
    /\ (is_Some (fatal_event e) -> last (trace w) = fatal_event e).
Proof. apply Start_services_outcome. Qed.

(** X2.  [Start] on a new controller never dereferences nil and never
    returns while the stop channel is open: it exits the process, for the
    reasons of [fatal_event], or it sits in the receive on the stop
    channel, in the very state the startup left: no queue has been shut
    down. *)
Theorem Start_waits_for_stop_channel e d :
  exists w,
    Start_services e d initial_world
    = (match fatal_event e with Some _ => Fatal | None => Done tt end, w)
    /\ Start e d initial_world
       = (match fatal_event e with Some _ => Fatal | None => Blocked end, w).
Proof.
  destruct (Start_services_outcome e d) as (w & Hrun & _).
  exists w. split; [done|].
  unfold Start, bind. rewrite Hrun.
  destruct (fatal_event e); [done|].
  apply Start_shutdown_blocked.
  by apply Start_services_started in Hrun as [].
Qed.

(** X3.  When the startup exits before [configController] has returned
    (unsupported strategy, templates, fake CA), nothing has been started:
    not the cache, no goroutine, not the ACME listener, not the external
    controller; and the converter options were never assigned. *)
Theorem nothing_started_when_configuration_fails e d w :
  Start_config e d initial_world = (Fatal, w) ->
  Start_services e d initial_world = (Fatal, w)
  /\ existsb is_service (trace w) = false
  /\ converterOptions (hc w) = None.
Proof.
  intros H. split.
  { rewrite Start_services_split. unfold bind. by rewrite H. }
  revert H. destruct_env e. run_startup.
  destruct ars as [rs|], amo, avc, icf; simpl.
  all: try destruct (supported_strategy rs) eqn:Hsup; simpl.
  all: try destruct (String.eqb rs "multibinder") eqn:Hmb; simpl.
  all: destruct acme; simpl.
  all: destruct pte; simpl.
  all: try destruct aca; simpl.
  all: intros [= <-]; done.
Qed.

Lemma nothing_started_witness :
  Start_services broken_templates_env example_maps initial_world
  = (Fatal, (Start_config broken_templates_env example_maps initial_world).2)
  /\ existsb is_service
       (trace (Start_config broken_templates_env example_maps initial_world).2)
     = false
  /\ converterOptions
       (hc (Start_config broken_templates_env example_maps initial_world).2)
     = None.
Proof.
  apply (nothing_started_when_configuration_fails broken_templates_env example_maps).
  vm_compute. reflexivity.
Defined.

(** X4.  With [AcmeServer] set, a control socket that cannot be bound
    ends [startServices] with a fatal message, in the middle of the
    startup: the cache, the Work Queue worker and the leader elector have
    already been started, while the listener, the worker of the ACME
    queue, the periodic check and the external controller have not. *)
Theorem acme_listener_failure e d w0 err :
  Start_config e d initial_world = (Done tt, w0) ->
  Configuration.AcmeServer (GetConfig e) = true ->
  Listen_err e = Some err ->
  exists w,
    startServices e w0 = (Fatal, w)
    /\ last (trace w)
       = Some (EvFatal "error creating the acme server listener: %v" [AStr err])
    /\ existsb is_cache_run (trace w) = true
    /\ (exists iq, ingressQueue (hc w) = Some iq
                   /\ existsb (is_queue_run iq) (trace w) = true)
    /\ acme_services w = mkAcmeServices true true true true false false false
    /\ existsb is_start_async (trace w) = false.
Proof.
  destruct_env e. simpl. intros H -> ->. revert H. run_startup.
  destruct ars as [rs|], amo, avc, icf; simpl.
  all: try destruct (supported_strategy rs) eqn:Hsup; simpl; try (intros [=]; fail).
  all: try destruct (String.eqb rs "multibinder") eqn:Hmb; simpl.
  all: destruct pte; simpl; try (intros [=]; fail).
  all: destruct aca; simpl; try (intros [=]; fail).
  all: intros [= <-]; simpl.
  all: destruct (0 <? Milliseconds scp); simpl.
  all: eexists; split; [reflexivity|]; simpl.
  all: split_and!; try reflexivity; eauto.
Qed.

Lemma acme_listener_failure_witness :
  exists w,
    startServices busy_socket_env
      (Start_config busy_socket_env example_maps initial_world).2 = (Fatal, w)
    /\ last (trace w)
       = Some (EvFatal "error creating the acme server listener: %v"
                 [AStr "listen unix /var/run/haproxy/acme.sock: bind: address already in use"])
    /\ existsb is_cache_run (trace w) = true
    /\ (exists iq, ingressQueue (hc w) = Some iq
                   /\ existsb (is_queue_run iq) (trace w) = true)
    /\ acme_services w = mkAcmeServices true true true true false false false
    /\ existsb is_start_async (trace w) = false.
Proof.
  apply (acme_listener_failure busy_socket_env example_maps);
    vm_compute; reflexivity.
Defined.

(** X5.  In a startup that completes, the goroutine that samples the idle
    metric is started exactly when [StatsCollectProcPeriod] is at least
    one millisecond, with that period; a shorter period, zero or a
    negative one start nothing (the test is on whole milliseconds). *)
Theorem idle_metric_sampling_threshold e d w :
  Start_services e d initial_world = (Done tt, w) ->
  List.filter is_calc_idle (trace w)
  = if 1000000 <=? Configuration.StatsCollectProcPeriod (GetConfig e)
    then [EvGo (TCalcIdleMetric (Configuration.StatsCollectProcPeriod (GetConfig e)))]
    else [].
Proof.
  destruct_env e. run_startup.
  destruct ars as [rs|], amo, avc, icf; simpl.
  all: try destruct (supported_strategy rs) eqn:Hsup; simpl; try (intros [=]; fail).
  all: try destruct (String.eqb rs "multibinder") eqn:Hmb; simpl.
  all: destruct acme; simpl.
  all: destruct pte; simpl; try (intros [=]; fail).
  all: destruct aca; simpl; try (intros [=]; fail).
  all: rewrite Milliseconds_pos; destruct (1000000 <=? scp); simpl.
  all: try (destruct lerr; simpl; try (intros [=]; fail)).
  all: intros [= <-]; reflexivity.
Qed.

Lemma idle_metric_sampling_witness :
  List.filter is_calc_idle (trace started_world)
  = [EvGo (TCalcIdleMetric 500000000)].
Proof.
  apply (idle_metric_sampling_threshold (example_env None true 5) example_maps).
  vm_compute. reflexivity.
Defined.




(** X8.  When [configController] returns, before [startServices] has
    started anything, there is one queue if [AcmeServer] is off and there
    are two distinct ones if it is on, all empty and accepting keys.  The
    Work Queue is limited to [RateLimitUpdate], is processed by
    [syncIngress] and is the queue handed to the cache; the ACME queue
    backs off from [AcmeFailInitialDuration] to [AcmeFailMaxDuration] and
    is processed by the signer's [Notify]. *)
Theorem queues_after_configuration e d w :
  Start_config e d initial_world = (Done tt, w) ->
  exists iq,
    ingressQueue (hc w) = Some iq
    /\ cache_queue <$> cache (hc w) = Some iq
    /\ queues w !! iq
       = Some (NewRateLimitingQueue
                 (Configuration.RateLimitUpdate (GetConfig e)) HSyncIngress)
    /\ existsb is_service (trace w) = false
    /\ match acmeQueue (hc w) with
       | Some aq =>
           Configuration.AcmeServer (GetConfig e) = true
           /\ aq <> iq
           /\ queues w !! aq
              = Some (NewFailureRateLimitingQueue
                        (Configuration.AcmeFailInitialDuration (GetConfig e))
                        (Configuration.AcmeFailMaxDuration (GetConfig e))
                        HAcmeNotify)
           /\ length (queues w) = 2%nat
       | None =>
           Configuration.AcmeServer (GetConfig e) = false
           /\ length (queues w) = 1%nat
       end.
Proof.
  destruct_env e. run_startup.
  destruct ars as [rs|], amo, avc, icf; simpl.
  all: try destruct (supported_strategy rs) eqn:Hsup; simpl; try (intros [=]; fail).
  all: try destruct (String.eqb rs "multibinder") eqn:Hmb; simpl.
  all: destruct acme; simpl.
  all: destruct pte; simpl; try (intros [=]; fail).
  all: destruct aca; simpl; try (intros [=]; fail).
  all: intros [= <-]; eexists; split_and!; try reflexivity; simpl; done.
Qed.

Lemma queues_after_configuration_witness :
  exists iq,
    ingressQueue
      (hc (Start_config (example_env None true 5) example_maps initial_world).2)
    = Some iq
    /\ cache_queue
         <$> cache
               (hc (Start_config (example_env None true 5) example_maps
                      initial_world).2)
       = Some iq
    /\ queues (Start_config (example_env None true 5) example_maps initial_world).2
         !! iq
       = Some (NewRateLimitingQueue (1 # 2) HSyncIngress)
    /\ existsb is_service
         (trace (Start_config (example_env None true 5) example_maps
                   initial_world).2)
       = false
    /\ match
         acmeQueue
           (hc (Start_config (example_env None true 5) example_maps
                  initial_world).2)
       with
       | Some aq =>
           true = true
           /\ aq <> iq
           /\ queues
                (Start_config (example_env None true 5) example_maps
                   initial_world).2 !! aq
              = Some (NewFailureRateLimitingQueue 300000000000 3600000000000
                        HAcmeNotify)
           /\ length
                (queues
                   (Start_config (example_env None true 5) example_maps
                      initial_world).2) = 2%nat
       | None =>
           true = false
           /\ length
                (queues
                   (Start_config (example_env None true 5) example_maps
                      initial_world).2) = 1%nat
       end.
Proof.
  apply (queues_after_configuration (example_env None true 5) example_maps).
  vm_compute. reflexivity.
Defined.



(** X10.  The defaults that [ConfigureFlags] registers pass
    [OverrideFlags]: from any state of the controller, the two in a row
    complete, leave the strategy reusesocket, no old configuration files
    and no validation behind the three flag pointers, touch no other
    field, and force the ingress-class flag, when it is registered, to the
    class [DefaultIngressClass] reports. *)
Theorem default_flags_pass_validation e w :
  exists h,
    (ConfigureFlags e ;;; OverrideFlags) w
    = (Done tt,
       mkWorld h (queues w) (timers w) (stopFired w)
         (trace w ++ if has_ingress_class_flag e
                     then [EvFlagDefault "ingress-class" DefaultIngressClass]
                     else []))
    /\ reloadStrategy h = Some "reusesocket"
    /\ maxOldConfigFiles h = Some 0
    /\ validateConfig h = Some false
    /\ h = set_validateConfig (validateConfig h)
             (set_maxOldConfigFiles (maxOldConfigFiles h)
                (set_reloadStrategy (reloadStrategy h) (hc w))).
Proof.
  destruct w as [[] qs tm sf tr]. unfold ConfigureFlags, OverrideFlags.
  run_world. simpl.
  destruct (has_ingress_class_flag e); simpl;
    eexists; (split; [by rewrite ?app_nil_r|done]).
Qed.

(** X11.  In a running controller, [AcmeCheck] asks the instance for a
    check with the reason external call and returns the instance's
    answer, count and error, as it is; [OnStartedLeading] asks with the
    reason started leading and drops the answer; [OnNewLeader] logs the
    identity.  Each completes and makes that one call.  What the instance
    does during the check, to the ACME queue it was handed in particular,
    is its own business and not stated here. *)
Theorem acme_check_triggers e d w identity :
  running e d w ->
  (AcmeCheck e w).1 = Done (AcmeCheck_result e)
  /\ trace (AcmeCheck e w).2 = trace w ++ [EvAcmeCheck "external call"]
  /\ (OnStartedLeading w).1 = Done tt
  /\ trace (OnStartedLeading w).2 = trace w ++ [EvAcmeCheck "started leading"]
  /\ (OnNewLeader identity w).1 = Done tt
  /\ trace (OnNewLeader identity w).2
     = trace w ++ [EvInfo "leader changed to %s" [AStr identity]].
Proof.
  intros (w0 & _ & _ & Hc)%running_wiring.
  destruct (cf_instance _ Hc) as [inst Hinst].
  destruct (cf_logger _ Hc) as [lg Hlg].
  unfold AcmeCheck, OnStartedLeading, OnNewLeader. run_prims.
  by rewrite Hinst, Hlg.
Qed.

Lemma acme_check_triggers_witness :
  (AcmeCheck (example_env None true 5) started_world).1 = Done (0, None)
  /\ trace (AcmeCheck (example_env None true 5) started_world).2
     = trace started_world ++ [EvAcmeCheck "external call"]
  /\ (OnStartedLeading started_world).1 = Done tt
  /\ trace (OnStartedLeading started_world).2
     = trace started_world ++ [EvAcmeCheck "started leading"]
  /\ (OnNewLeader "haproxy-ingress-7d4b9" started_world).1 = Done tt
  /\ trace (OnNewLeader "haproxy-ingress-7d4b9" started_world).2
     = trace started_world
       ++ [EvInfo "leader changed to %s" [AStr "haproxy-ingress-7d4b9"]].
Proof.
  apply (acme_check_triggers (example_env None true 5) example_maps).
  exists started_world, []. split; vm_compute; reflexivity.
Defined.

(** X12.  In a controller started with [AcmeServer] off there is, at any
    later time, neither a leader elector nor an ACME queue, and a call of
    [OnStoppedLeading] dereferences the nil queue.  Only the elector calls
    it, and there is none: delivered through the elector the callback does
    nothing. *)
Theorem OnStoppedLeading_without_acme e d w :
  running e d w ->
  Configuration.AcmeServer (GetConfig e) = false ->
  leaderelector (hc w) = None
  /\ acmeQueue (hc w) = None
  /\ OnStoppedLeading w = (Panic, w)
  /\ exec e OpStoppedLeading w = (Done tt, w).
Proof.
  intros (w0 & Hstart & Hsw & Hc)%running_wiring Hacme.
  apply Start_services_started in Hstart as [_ _ _ _ _ _ _ _ Hel].
  rewrite Hacme in Hel.
  assert (Hle : leaderelector (hc w) = None).
  { rewrite (sw_leaderelector _ _ Hsw).
    by destruct (leaderelector (hc w0)). }
  assert (Haq : acmeQueue (hc w) = None).
  { destruct (acmeQueue (hc w)) eqn:Haq; [|done].
    destruct (proj2 (cf_elector _ Hc)) as [? Hx]; [by rewrite Haq|].
    by rewrite Hle in Hx. }
  split_and!; try done.
  - by apply OnStoppedLeading_nil.
  - unfold exec. run_prims. by rewrite Hle.
Qed.

Lemma OnStoppedLeading_without_acme_witness :
  leaderelector
    (hc (Start_services (example_env None false 0) example_maps initial_world).2)
  = None
  /\ acmeQueue
       (hc (Start_services (example_env None false 0) example_maps initial_world).2)
     = None
  /\ OnStoppedLeading
       (Start_services (example_env None false 0) example_maps initial_world).2
     = (Panic,
        (Start_services (example_env None false 0) example_maps initial_world).2)
  /\ exec (example_env None false 0) OpStoppedLeading
       (Start_services (example_env None false 0) example_maps initial_world).2
     = (Done tt,
        (Start_services (example_env None false 0) example_maps initial_world).2).
Proof.
  apply (OnStoppedLeading_without_acme (example_env None false 0) example_maps).
  - exists (Start_services (example_env None false 0) example_maps initial_world).2, [].
    split; vm_compute; reflexivity.
  - reflexivity.
Defined.



(** X14.  A controller that was started never dereferences nil and never
    exits: at any later time every operation on it (adding a key, an
    iteration of a worker with [syncIngress] or the signer, the elector's
    callbacks, [AcmeCheck], [Check], [SetConfig], [Stop], the shutdown)
    completes, except that the receive on the stop channel waits while
    the channel is open. *)
Theorem started_controller_is_nil_safe e d w op :
  running e d w ->
  (exec e op w).1 = exec_result op w.
Proof.
  intros (w0 & _ & _ & Hc)%running_wiring. by apply exec_cases.
Qed.

Lemma started_controller_is_nil_safe_witness :
  (exec (example_env None true 5) OpStoppedLeading started_world).1 = Done tt
  /\ (exec (example_env None true 5) OpStartShutdown started_world).1 = Blocked.
Proof.
  split.
  - apply (started_controller_is_nil_safe (example_env None true 5) example_maps
             started_world OpStoppedLeading).
    exists started_world, []. split; vm_compute; reflexivity.
  - apply (started_controller_is_nil_safe (example_env None true 5) example_maps
             started_world OpStartShutdown).
    exists started_world, []. split; vm_compute; reflexivity.
Defined.

(** X15.  With a positive [WaitBeforeShutdown], [Stop] on a running
    controller logs the grace period, sleeps, stops the external
    controller and returns that controller's error, changing no field and
    no queue.  The period is the product of the setting and
    [time.Second] in 64 bits: it is the configured number of seconds
    exactly when the setting is at most 9223372036, beyond that the
    product has wrapped around. *)
Theorem Stop_grace_period e d w :
  running e d w ->
  0 < Configuration.WaitBeforeShutdown (GetConfig e) <= max_int ->
  Stop e w
  = (Done (controller_Stop_err e),
     mkWorld (hc w) (queues w) (timers w) (stopFired w)
       (trace w ++
        [ EvGlogInfo "Waiting %v before stopping components"
            [ADuration (int_mul (Configuration.WaitBeforeShutdown (GetConfig e)) Second)];
          EvSleep (int_mul (Configuration.WaitBeforeShutdown (GetConfig e)) Second);
          EvControllerStop ]))
  /\ (int_mul (Configuration.WaitBeforeShutdown (GetConfig e)) Second
      = Configuration.WaitBeforeShutdown (GetConfig e) * 1000000000
      <-> Configuration.WaitBeforeShutdown (GetConfig e) <= 9223372036).
Proof.
  intros (w0 & Hstart & Hsw & Hc)%running_wiring Hw.
  apply Start_services_instance in Hstart as [_ Hstart].
  rewrite <- (sw_cfg _ _ Hsw) in Hstart.
  split.
  - destruct (Stop_effect e w Hc) as (c & Hcfg & ->).
    rewrite Hstart in Hcfg. injection Hcfg as <-.
    unfold grace_events.
    by destruct (Z.ltb_spec 0 (Configuration.WaitBeforeShutdown (GetConfig e))); [|lia].
  - unfold int_mul, Second. split.
    + intros Heq.
      pose proof (wrap_int_range
        (Configuration.WaitBeforeShutdown (GetConfig e) * 1000000000)) as Hr.
      rewrite Heq in Hr. unfold max_int in Hr. lia.
    + intros Hle. apply wrap_int_id. unfold min_int, max_int. lia.
Qed.

Lemma Stop_grace_period_witness :
  Stop (example_env None true 5) started_world
  = (Done None,
     mkWorld (hc started_world) (queues started_world) (timers started_world)
       (stopFired started_world)
       (trace started_world ++
        [ EvGlogInfo "Waiting %v before stopping components"
            [ADuration (int_mul 5 Second)];
          EvSleep (int_mul 5 Second);
          EvControllerStop ]))
  /\ (int_mul 5 Second = 5 * 1000000000 <-> 5 <= 9223372036).
Proof.
  apply (Stop_grace_period (example_env None true 5) example_maps).
  - exists started_world, []. split; vm_compute; reflexivity.
  - simpl. unfold max_int. lia.
Defined.

(** X16.  The ConfigMap that [SetConfig] stores is never read: every other
    operation on the controller, in any state, gives the same result,
    makes the same calls and leaves the same queues and fields whichever
    ConfigMap is stored, and leaves the stored one in place. *)
Theorem configMap_is_never_read e op cm w :
  is_SetConfig op = false ->
  exec e op (with_configMap cm w)
  = ((exec e op w).1, with_configMap cm (exec e op w).2).
Proof. intros Hop. by apply exec_ignores_configMap. Qed.

Lemma configMap_is_never_read_witness :
  exec (example_env None true 5) (OpWork false true)
    (with_configMap (Some (AConfigMap "haproxy-ingress")) one_pending_world)
  = ((exec (example_env None true 5) (OpWork false true) one_pending_world).1,
     with_configMap (Some (AConfigMap "haproxy-ingress"))
       (exec (example_env None true 5) (OpWork false true) one_pending_world).2).
Proof.
  apply (configMap_is_never_read (example_env None true 5) (OpWork false true)).
  reflexivity.
Defined.
